(** * SSND benchmark loader: a shallow embedding of [ssnd_loader.py]

    The development follows the source file top to bottom: the Python
    primitives the loader relies on ([str] methods, [int], [float],
    [ast.literal_eval], insertion-ordered [dict]), then the section
    splitter, the row parsers, the instance assembler, the scenario parser
    and the two file-name patterns; the theorems come last.

    Conventions.
    - A Python [str] is a [string]; each [ascii] stands for the code point
      of the same number (code points below 256).
    - A raised exception is the [Raise] branch of [result]; the exception
      classes are the ones the source can raise.
    - A Python [dict] is an association list in insertion order whose keys
      are pairwise distinct: assigning to a present key replaces the value
      in place, assigning to a new key appends. *)

From Stdlib Require Import String Ascii List ZArith QArith Lia Bool Permutation.
From Stdlib Require Import DecimalString Decimal.
Import ListNotations.
Local Open Scope string_scope.
Local Open Scope Z_scope.

Set Implicit Arguments.
Set Warnings "-register-all".

(* ================================================================== *)
(** * Exceptions and the error monad *)

Inductive exn : Type :=
| ValueError (msg : string)
| IndexError (msg : string)
| KeyError (key : string)
| TypeError (msg : string)
| OverflowError (msg : string).

Inductive result (A : Type) : Type :=
| Ok (a : A)
| Raise (e : exn).

Arguments Ok {A} a.
Arguments Raise {A} e.

Definition bind {A B : Type} (m : result A) (k : A -> result B) : result B :=
  match m with
  | Ok a => k a
  | Raise e => Raise e
  end.

Declare Scope py_scope.
Delimit Scope py_scope with py.
Notation "x <- m ;; k" := (bind m (fun x => k))
  (at level 61, m at next level, right associativity) : py_scope.
Notation "' p <- m ;; k" := (bind m (fun x => match x with p => k end))
  (at level 61, p pattern, m at next level, right associativity) : py_scope.
Local Open Scope py_scope.

Definition is_ok {A : Type} (m : result A) : bool :=
  match m with Ok _ => true | Raise _ => false end.

(** [mapM f xs]: a list comprehension [[f(x) for x in xs]] whose element
    expression can raise; the first exception aborts the comprehension. *)
Fixpoint mapM {A B : Type} (f : A -> result B) (xs : list A) : result (list B) :=
  match xs with
  | [] => Ok []
  | x :: r => y <- f x ;; ys <- mapM f r ;; Ok (y :: ys)
  end.

(* ================================================================== *)
(** * Python [str] primitives *)

Module Str.

Definition chr (n : nat) : ascii := ascii_of_nat n.
Definition ord (c : ascii) : nat := nat_of_ascii c.

Definition TAB : ascii := chr 9.
Definition LF : ascii := chr 10.
Definition CR : ascii := chr 13.

(** [str.isspace] on one character, for code points below 256:
    U+0009..U+000D, U+001C..U+001F, U+0020, U+0085, U+00A0. *)
Definition isspace (c : ascii) : bool :=
  let n := ord c in
  ((9 <=? n) && (n <=? 13) || (28 <=? n) && (n <=? 32)
   || (n =? 133) || (n =? 160))%nat.

(** The line boundaries of [str.splitlines], for code points below 256:
    LF, CR (and the pair CR LF), VT, FF, FS, GS, RS and NEL. *)
Definition islinebreak (c : ascii) : bool :=
  let n := ord c in
  ((10 <=? n) && (n <=? 13) || (28 <=? n) && (n <=? 30) || (n =? 133))%nat.

Definition isdigit (c : ascii) : bool :=
  let n := ord c in ((48 <=? n) && (n <=? 57))%nat.

Definition digit_val (c : ascii) : Z := Z.of_nat (ord c) - 48.

Fixpoint rev_acc (s acc : string) : string :=
  match s with
  | EmptyString => acc
  | String c r => rev_acc r (String c acc)
  end.

Definition rev (s : string) : string := rev_acc s "".

Fixpoint lstrip (s : string) : string :=
  match s with
  | String c r => if isspace c then lstrip r else s
  | EmptyString => ""
  end.

Definition rstrip (s : string) : string := rev (lstrip (rev s)).

(** [s.strip()] *)
Definition strip (s : string) : string := rstrip (lstrip s).

(** [s.replace(c, "")] for a one-character [c]. *)
Fixpoint remove (c : ascii) (s : string) : string :=
  match s with
  | EmptyString => ""
  | String d r => if Ascii.eqb d c then remove c r else String d (remove c r)
  end.

(** [c in s] for a one-character [c]. *)
Fixpoint contains (c : ascii) (s : string) : bool :=
  match s with
  | EmptyString => false
  | String d r => Ascii.eqb d c || contains c r
  end.

(** [s.startswith(p)] *)
Fixpoint startswith (p s : string) : bool :=
  match p, s with
  | EmptyString, _ => true
  | String a p', String b s' => Ascii.eqb a b && startswith p' s'
  | String _ _, EmptyString => false
  end.

(** [s[n:]] *)
Fixpoint drop (n : nat) (s : string) : string :=
  match n, s with
  | O, _ => s
  | S n', String _ r => drop n' r
  | S _, EmptyString => ""
  end.

(** [s[:n]] *)
Fixpoint take (n : nat) (s : string) : string :=
  match n, s with
  | O, _ => ""
  | S n', String c r => String c (take n' r)
  | S _, EmptyString => ""
  end.

(** [s.split(c)] for a one-character separator: the pieces between the
    occurrences of [c]; never the empty list. *)
Fixpoint split_aux (c : ascii) (s cur : string) : list string :=
  match s with
  | EmptyString => [rev cur]
  | String d r =>
      if Ascii.eqb d c then rev cur :: split_aux c r ""
      else split_aux c r (String d cur)
  end.

Definition split (c : ascii) (s : string) : list string := split_aux c s "".

(** [s.split(c, 1)]: [Some (before, after)] when [c] occurs in [s] (the
    two-element list), [None] when it does not (the one-element list). *)
Fixpoint split_first (c : ascii) (s : string) : option (string * string) :=
  match s with
  | EmptyString => None
  | String d r =>
      if Ascii.eqb d c then Some ("", r)
      else match split_first c r with
           | Some (k, v) => Some (String d k, v)
           | None => None
           end
  end.

(** [sep.join(xs)] for a one-character separator. *)
Fixpoint join (c : ascii) (xs : list string) : string :=
  match xs with
  | [] => ""
  | [x] => x
  | x :: r => x ++ String c (join c r)
  end.

(** [s.splitlines()]: the lines without their line boundaries; a final
    boundary does not open a further, empty line. *)
Fixpoint splitlines_aux (s cur : string) : list string :=
  match s with
  | EmptyString =>
      match cur with EmptyString => [] | _ => [rev cur] end
  | String c r =>
      if islinebreak c then
        match r with
        | String d r' =>
            if Ascii.eqb c CR && Ascii.eqb d LF
            then rev cur :: splitlines_aux r' ""
            else rev cur :: splitlines_aux r ""
        | EmptyString => [rev cur]
        end
      else splitlines_aux r (String c cur)
  end.

Definition splitlines (s : string) : list string := splitlines_aux s "".

(** [s.lower()] for code points below 256: A..Z and the accented capitals
    U+00C0..U+00DE (U+00D7, the multiplication sign, apart). *)
Definition lower_char (c : ascii) : ascii :=
  let n := ord c in
  if ((65 <=? n) && (n <=? 90)
      || (192 <=? n) && (n <=? 222) && negb (n =? 215))%nat
  then chr (n + 32) else c.

Fixpoint lower (s : string) : string :=
  match s with
  | EmptyString => ""
  | String c r => String (lower_char c) (lower r)
  end.

(** [repr(s)], without the escapes [repr] adds for quotes and control
    characters; only used inside exception messages. *)
Definition repr (s : string) : string := "'" ++ s ++ "'".

Definition isempty (s : string) : bool :=
  match s with EmptyString => true | _ => false end.

End Str.

(* ================================================================== *)
(** * [int()] and [float()] *)

(** A run of decimal digits in which single underscores may separate
    digits, as [int] and [float] accept it.  [prev] tells whether the
    previous character was a digit; the run has to end on a digit. *)
Fixpoint digits_value (s : string) (acc : Z) (prev : bool) : option Z :=
  match s with
  | EmptyString => if prev then Some acc else None
  | String c r =>
      if Str.isdigit c then digits_value r (acc * 10 + Str.digit_val c) true
      else if Ascii.eqb c "_" then
        if prev then digits_value r acc false else None
      else None
  end.

(** [int(s)] for a [str] argument, base 10: surrounding white space is
    dropped, one sign is allowed, the digits follow at once.  (The
    interpreter's limit on the number of digits is not modelled.) *)
Definition int_of_string (s : string) : option Z :=
  match Str.strip s with
  | String "+" r => digits_value r 0 false
  | String "-" r => option_map Z.opp (digits_value r 0 false)
  | t => digits_value t 0 false
  end.

Definition py_int_str (s : string) : result Z :=
  match int_of_string s with
  | Some z => Ok z
  | None =>
      Raise (ValueError ("invalid literal for int() with base 10: " ++ Str.repr s))
  end.

(** The floating-point numbers of the interpreter, kept abstract: the
    loader only converts to [float] and stores the result, so nothing in
    the development depends on how a decimal text is rounded. *)
Class PyFloat : Type := {
  float : Type;
  (** [float(s)] for a [str]; [None] is the [ValueError]. *)
  float_of_string : string -> option float;
  (** [float(n)] for an [int]; [None] is the [OverflowError]. *)
  float_of_Z : Z -> option float;
  (** [int(x)] for a [float]: truncation; [None] on inf and nan. *)
  float_to_Z : float -> option Z;
  (** [math.isnan(x)] *)
  float_isnan : float -> bool
}.

Definition py_float_str `{PyFloat} (s : string) : result float :=
  match float_of_string s with
  | Some x => Ok x
  | None => Raise (ValueError ("could not convert string to float: " ++ Str.repr s))
  end.

Definition py_float_int `{PyFloat} (z : Z) : result float :=
  match float_of_Z z with
  | Some x => Ok x
  | None => Raise (OverflowError "int too large to convert to float")
  end.

(** ** A concrete float: the exact value of the decimal text

    Used for the worked examples.  The syntax is the one [float()]
    accepts; a finite text denotes its exact rational value, in lowest
    terms, so the binary rounding of the interpreter is not modelled (it
    is the identity on the values the examples use). *)
Module DecFloat.

Inductive t : Type :=
| Fin (q : Q)
| Inf (negative : bool)
| NaN.

(** Digits with optional single underscores between them; stops at the
    first character that is neither.  Returns the value, the number of
    digits read and the rest. *)
Fixpoint scan_digits (s : string) (acc : Z) (n : nat) : option (Z * nat * string) :=
  match s with
  | EmptyString => Some (acc, n, "")
  | String c r =>
      if Str.isdigit c then scan_digits r (acc * 10 + Str.digit_val c) (S n)
      else if Ascii.eqb c "_" then
        match n, r with
        | S _, String d _ => if Str.isdigit d then scan_digits r acc n else None
        | _, _ => None
        end
      else Some (acc, n, s)
  end.

Definition scan_sign (s : string) : bool * string :=
  match s with
  | String "+" r => (false, r)
  | String "-" r => (true, r)
  | _ => (false, s)
  end.

Definition scan_exponent (s : string) : option Z :=
  match s with
  | EmptyString => Some 0
  | String c r =>
      if Ascii.eqb c "e" || Ascii.eqb c "E" then
        let '(neg, r') := scan_sign r in
        match scan_digits r' 0 0 with
        | Some (e, S _, EmptyString) => Some (if neg then - e else e)
        | _ => None
        end
      else None
  end.

Definition scale (m e : Z) : Q :=
  if 0 <=? e then (m * 10 ^ e) # 1
  else Qred (m # Z.to_pos (10 ^ (- e))).

Definition scan_number (s : string) : option Q :=
  match scan_digits s 0 0 with
  | None => None
  | Some (ip, ni, r) =>
      match r with
      | String "." r1 =>
          match scan_digits r1 ip 0 with
          | None => None
          | Some (m, nf, r2) =>
              match (ni + nf)%nat, scan_exponent r2 with
              | S _, Some e => Some (scale m (e - Z.of_nat nf))
              | _, _ => None
              end
          end
      | _ =>
          match ni, scan_exponent r with
          | S _, Some e => Some (scale ip e)
          | _, _ => None
          end
      end
  end.

Definition of_string (s : string) : option t :=
  let '(neg, r) := scan_sign (Str.strip s) in
  let l := Str.lower r in
  if String.eqb l "inf" || String.eqb l "infinity" then Some (Inf neg)
  else if String.eqb l "nan" then Some NaN
  else match scan_number r with
       | Some q => Some (Fin (if neg then Qred (- q) else q))
       | None => None
       end.

(** [float(n)] overflows from 2^1024 - 2^970 on, the least integer that
    rounds to 2^1024. *)
Definition of_Z (z : Z) : option t :=
  if Z.abs z <? 2 ^ 1024 - 2 ^ 970 then Some (Fin (z # 1)) else None.

Definition to_Z (x : t) : option Z :=
  match x with
  | Fin q => Some (Z.quot (Qnum q) (Zpos (Qden q)))
  | Inf _ | NaN => None
  end.

Definition isnan (x : t) : bool :=
  match x with NaN => true | _ => false end.

#[export] Instance dec_float : PyFloat :=
  {| float := t; float_of_string := of_string;
     float_of_Z := of_Z; float_to_Z := to_Z; float_isnan := isnan |}.

End DecFloat.

(* ================================================================== *)
(** * [ast.literal_eval], on the literals the instance files contain

    The values are integers, tuples and lists, nested at will.  The
    modelled syntax is the Python expression syntax restricted to decimal
    integer literals, unary signs, parentheses, brackets and commas (and a
    trailing comment); the other literal forms of Python (floats,
    strings, [None], dicts, ...) are outside it and are reported as a
    decoding failure. *)

Inductive lit : Type :=
| LInt (z : Z)
| LTuple (xs : list lit)
| LList (xs : list lit).

Module Literal.

Inductive token : Type :=
| TInt (z : Z) | TPlus | TMinus | TLPar | TRPar | TLBrk | TRBrk | TComma.

(** A decimal integer literal: digits with single underscores between
    them; a literal that starts with 0 consists of zeros only. *)
Definition int_lexeme (lexeme : string) : option Z :=
  match digits_value lexeme 0 false with
  | Some z =>
      match lexeme with
      | String "0" _ => if z =? 0 then Some z else None
      | _ => Some z
      end
  | None => None
  end.

Definition flush (cur : string) (k : option (list token)) : option (list token) :=
  match cur with
  | EmptyString => k
  | _ => match int_lexeme (Str.rev cur), k with
         | Some z, Some ts => Some (TInt z :: ts)
         | _, _ => None
         end
  end.

Definition punct (c : ascii) : option token :=
  if Ascii.eqb c "+" then Some TPlus
  else if Ascii.eqb c "-" then Some TMinus
  else if Ascii.eqb c "(" then Some TLPar
  else if Ascii.eqb c ")" then Some TRPar
  else if Ascii.eqb c "[" then Some TLBrk
  else if Ascii.eqb c "]" then Some TRBrk
  else if Ascii.eqb c "," then Some TComma
  else None.

(** The tokenizer; [cur] collects, in reverse, the characters of the
    number being read.  Blanks (space, tab, form feed) separate tokens and
    [#] starts a comment that runs to the end. *)
Fixpoint tokenize (s cur : string) : option (list token) :=
  match s with
  | EmptyString => flush cur (Some [])
  | String c r =>
      if Str.isdigit c || Ascii.eqb c "_" then tokenize r (String c cur)
      else if Ascii.eqb c " " || Ascii.eqb c Str.TAB || Ascii.eqb c (Str.chr 12)
      then flush cur (tokenize r "")
      else if Ascii.eqb c "#" then flush cur (Some [])
      else match punct c with
           | Some t => flush cur (option_map (cons t) (tokenize r ""))
           | None => None
           end
  end.

(** The syntax tree [ast.parse] builds (parentheses leave no node). *)
Inductive ast : Type :=
| AConst (z : Z)
| AUnary (negative : bool) (a : ast)
| ATuple (elts : list ast)
| AList (elts : list ast).

(** [parse_atom] reads one operand; [parse_items] reads operands
    separated by commas and tells whether a comma was seen.  Both stop at
    the first token they cannot use. *)
Fixpoint parse_atom (fuel : nat) (ts : list token) : option (ast * list token) :=
  match fuel with
  | O => None
  | S fuel' =>
      match ts with
      | TInt z :: r => Some (AConst z, r)
      | TPlus :: r =>
          match parse_atom fuel' r with
          | Some (a, r') => Some (AUnary false a, r')
          | None => None
          end
      | TMinus :: r =>
          match parse_atom fuel' r with
          | Some (a, r') => Some (AUnary true a, r')
          | None => None
          end
      | TLPar :: TRPar :: r => Some (ATuple [], r)
      | TLPar :: r =>
          match parse_items fuel' r with
          | Some (elts, comma, TRPar :: r') =>
              match elts, comma with
              | [a], false => Some (a, r')
              | _, _ => Some (ATuple elts, r')
              end
          | _ => None
          end
      | TLBrk :: TRBrk :: r => Some (AList [], r)
      | TLBrk :: r =>
          match parse_items fuel' r with
          | Some (elts, _, TRBrk :: r') => Some (AList elts, r')
          | _ => None
          end
      | _ => None
      end
  end
with parse_items (fuel : nat) (ts : list token)
  : option (list ast * bool * list token) :=
  match fuel with
  | O => None
  | S fuel' =>
      match parse_atom fuel' ts with
      | None => None
      | Some (a, TComma :: r) =>
          match parse_items fuel' r with
          | Some (elts, _, r') => Some (a :: elts, true, r')
          | None => Some ([a], true, r)
          end
      | Some (a, r) => Some ([a], false, r)
      end
  end.

(** [ast.parse(x, mode='eval')]: one expression list that uses up the
    input; a top-level comma makes a tuple.  The fuel is enough: along a
    chain of nested calls only the step from [parse_items] to its first
    [parse_atom] keeps the token list, every other step shortens it, so a
    chain is at most twice as long as the list, plus two. *)
Definition parse (ts : list token) : option ast :=
  match parse_items (2 * length ts + 2) ts with
  | Some ([a], false, []) => Some a
  | Some (elts, true, []) => Some (ATuple elts)
  | _ => None
  end.

(** [_convert] of [literal_eval]: a sign is accepted in front of a number
    constant only. *)
Fixpoint convert (a : ast) : option lit :=
  match a with
  | AConst z => Some (LInt z)
  | AUnary neg (AConst z) => Some (LInt (if neg then - z else z))
  | AUnary _ _ => None
  | ATuple elts =>
      option_map LTuple
        ((fix go (l : list ast) : option (list lit) :=
            match l with
            | [] => Some []
            | x :: r => match convert x, go r with
                        | Some v, Some vs => Some (v :: vs)
                        | _, _ => None
                        end
            end) elts)
  | AList elts =>
      option_map LList
        ((fix go (l : list ast) : option (list lit) :=
            match l with
            | [] => Some []
            | x :: r => match convert x, go r with
                        | Some v, Some vs => Some (v :: vs)
                        | _, _ => None
                        end
            end) elts)
  end.

Definition literal_eval (x : string) : option lit :=
  match tokenize x "" with
  | Some ts => match parse ts with
               | Some a => convert a
               | None => None
               end
  | None => None
  end.

End Literal.

(** [_lit]: every exception of [literal_eval] becomes a [ValueError]
    that quotes the first 200 characters of the text. *)
Definition _lit (x : string) : result lit :=
  match Literal.literal_eval x with
  | Some v => Ok v
  | None => Raise (ValueError ("literal_eval failed on: " ++ Str.take 200 x ++ "..."))
  end.

(** [hash(v)]: lists are unhashable, tuples hash through their items. *)
Fixpoint hashable (v : lit) : bool :=
  match v with
  | LInt _ => true
  | LTuple xs => forallb hashable xs
  | LList _ => false
  end.

(** [v == w] on literal values. *)
Fixpoint lit_eqb (v w : lit) : bool :=
  match v, w with
  | LInt a, LInt b => a =? b
  | LTuple xs, LTuple ys =>
      (fix go (l1 l2 : list lit) : bool :=
         match l1, l2 with
         | [], [] => true
         | x :: r1, y :: r2 => lit_eqb x y && go r1 r2
         | _, _ => false
         end) xs ys
  | LList xs, LList ys =>
      (fix go (l1 l2 : list lit) : bool :=
         match l1, l2 with
         | [], [] => true
         | x :: r1, y :: r2 => lit_eqb x y && go r1 r2
         | _, _ => false
         end) xs ys
  | _, _ => false
  end.

(** The induction principle of [lit] that reaches the items of tuples
    and lists. *)
Section LitInd.
Variable P : lit -> Prop.
Hypothesis P_int : forall z, P (LInt z).
Hypothesis P_tuple : forall xs, Forall P xs -> P (LTuple xs).
Hypothesis P_list : forall xs, Forall P xs -> P (LList xs).

Fixpoint lit_ind' (v : lit) : P v :=
  match v with
  | LInt z => P_int z
  | LTuple xs =>
      P_tuple ((fix go (l : list lit) : Forall P l :=
                  match l with
                  | [] => Forall_nil P
                  | x :: r => Forall_cons x (lit_ind' x) (go r)
                  end) xs)
  | LList xs =>
      P_list ((fix go (l : list lit) : Forall P l :=
                 match l with
                 | [] => Forall_nil P
                 | x :: r => Forall_cons x (lit_ind' x) (go r)
                 end) xs)
  end.
End LitInd.

(* ================================================================== *)
(** * Python [dict] *)

(** Key comparison, [k1 == k2]. *)
Class Key (K : Type) : Type := key_eqb : K -> K -> bool.

#[export] Instance string_key : Key string := String.eqb.
#[export] Instance Z_key : Key Z := Z.eqb.
#[export] Instance lit_key : Key lit := lit_eqb.
#[export] Instance pair_key {A B : Type} `{Key A} `{Key B} : Key (A * B) :=
  fun p q => key_eqb (fst p) (fst q) && key_eqb (snd p) (snd q).

Definition dict (K V : Type) : Type := list (K * V).

Section Dict.
Context {K V : Type} `{Key K}.

(** [d.get(k)] *)
Fixpoint dict_get (d : dict K V) (k : K) : option V :=
  match d with
  | [] => None
  | (k', v) :: r => if key_eqb k' k then Some v else dict_get r k
  end.

(** [k in d] *)
Definition dict_mem (d : dict K V) (k : K) : bool :=
  match dict_get d k with Some _ => true | None => false end.

(** [d[k] = v]: a present key keeps its place (and its key object), a
    new key goes to the end. *)
Fixpoint dict_set (d : dict K V) (k : K) (v : V) : dict K V :=
  match d with
  | [] => [(k, v)]
  | (k', v') :: r =>
      if key_eqb k' k then (k', v) :: r else (k', v') :: dict_set r k v
  end.

(** [list(d)], the keys in insertion order. *)
Definition dict_keys (d : dict K V) : list K := map fst d.
End Dict.

(** [d[k] = v] for a key that is a literal value: an unhashable key
    raises. *)
Definition dict_set_lit {V : Type} (d : dict lit V) (k : lit) (v : V)
  : result (dict lit V) :=
  if hashable k then Ok (dict_set d k v)
  else Raise (TypeError "unhashable type: 'list'").

(** [xs[i]] on a list. *)
Definition list_index {A : Type} (xs : list A) (i : nat) : result A :=
  match nth_error xs i with
  | Some x => Ok x
  | None => Raise (IndexError "list index out of range")
  end.

Definition string_of_nat (n : nat) : string :=
  NilZero.string_of_uint (Nat.to_uint n).

(** [str(n)] for an [int]. *)
Definition string_of_Z (z : Z) : string :=
  NilZero.string_of_int (Z.to_int z).

(** The [ValueError] of a tuple assignment [a, b, ... = xs] whose
    right-hand side has [got] items instead of [expected]. *)
Definition unpack_error (expected got : nat) : exn :=
  if (got <? expected)%nat then
    ValueError ("not enough values to unpack (expected " ++ string_of_nat expected
                ++ ", got " ++ string_of_nat got ++ ")")
  else
    ValueError ("too many values to unpack (expected " ++ string_of_nat expected ++ ")").

Definition unpack2 {A : Type} (xs : list A) : result (A * A) :=
  match xs with
  | [a; b] => Ok (a, b)
  | _ => Raise (unpack_error 2 (length xs))
  end.

Definition unpack3 {A : Type} (xs : list A) : result (A * A * A) :=
  match xs with
  | [a; b; c] => Ok (a, b, c)
  | _ => Raise (unpack_error 3 (length xs))
  end.

Definition unpack4 {A : Type} (xs : list A) : result (A * A * A * A) :=
  match xs with
  | [a; b; c; d] => Ok (a, b, c, d)
  | _ => Raise (unpack_error 4 (length xs))
  end.

(** [v[i]] on a literal value. *)
Definition lit_getitem (v : lit) (i : nat) : result lit :=
  match v with
  | LTuple xs =>
      match nth_error xs i with
      | Some x => Ok x
      | None => Raise (IndexError "tuple index out of range")
      end
  | LList xs => list_index xs i
  | LInt _ => Raise (TypeError "'int' object is not subscriptable")
  end.

(** The items [list(v)] and [tuple(v)] iterate over. *)
Definition lit_items (v : lit) : result (list lit) :=
  match v with
  | LTuple xs | LList xs => Ok xs
  | LInt _ => Raise (TypeError "'int' object is not iterable")
  end.

(* ================================================================== *)
(** * The loader *)

Section Loader.
Context `{PyFloat}.

(** The values a parsed HEADER holds ([Dict[str, Any]] in the source):
    integers and literal values, floats, and raw strings. *)
Inductive hval : Type :=
| HLit (v : lit)
| HFloat (x : float)
| HStr (s : string).

(** [int(v)] *)
Definition py_int (v : hval) : result Z :=
  match v with
  | HLit (LInt z) => Ok z
  | HLit (LTuple _) =>
      Raise (TypeError "int() argument must be a string, a bytes-like object or a real number, not 'tuple'")
  | HLit (LList _) =>
      Raise (TypeError "int() argument must be a string, a bytes-like object or a real number, not 'list'")
  | HFloat x =>
      match float_to_Z x with
      | Some z => Ok z
      | None =>
          if float_isnan x
          then Raise (ValueError "cannot convert float NaN to integer")
          else Raise (OverflowError "cannot convert float infinity to integer")
      end
  | HStr s => py_int_str s
  end.

(** [float(v)] *)
Definition py_float (v : hval) : result float :=
  match v with
  | HLit (LInt z) => py_float_int z
  | HLit (LTuple _) =>
      Raise (TypeError "float() argument must be a string or a real number, not 'tuple'")
  | HLit (LList _) =>
      Raise (TypeError "float() argument must be a string or a real number, not 'list'")
  | HFloat x => Ok x
  | HStr s => py_float_str s
  end.

(** [list(v)] and [tuple(v)]: the items of [v]; a string yields its
    characters. *)
Definition py_items (v : hval) : result (list hval) :=
  match v with
  | HLit l => xs <- lit_items l ;; Ok (map HLit xs)
  | HFloat _ => Raise (TypeError "'float' object is not iterable")
  | HStr s => Ok (map (fun c => HStr (String c "")) (list_ascii_of_string s))
  end.

Record SSNDInstance : Type := {
  name : hval;
  NodeSize : Z;
  TimePeriods : list hval;
  RequestSize : Z;
  ServiceNoPerArc : Z;
  ServiceCapacity : Z;
  FastServiceRatio : float;
  RevenueRange : list hval;
  ReqDemandRange : list hval;
  ServiceCost : Z;
  TransCost : Z;
  HoldingCost : Z;
  physical_arcs : list lit;
  tnodes : list lit;
  services : list lit;
  cs : dict lit float;
  fs : dict lit float;
  us : dict lit float;
  reqs : list Z;
  os : dict Z Z;
  ds : dict Z Z;
  alphas : dict Z Z;
  betas : dict Z Z;
  is_contract : dict Z bool;
  rhos : dict Z float;
  ws : dict Z Z;
  holding_arcs : list lit;
  chs : dict lit float;
  alphaPsis : dict (Z * Z) float;
  betaPsis : dict (Z * Z) float;
  arcsEin : dict lit lit;
  arcsEout : dict lit lit
}.

Record WScenarioSet : Type := {
  node_size : Z;
  Kmax : Z;
  freq : Z;
  serv_cap : Z;
  nu : float;
  w_mu : dict Z Z;
  rnd_ws : dict Z (list Z)
}.

(** ** Helpers *)

Definition _clean (s : string) : string := Str.remove Str.CR (Str.strip s).

(** A table header row: its column names joined by tabs. *)
Definition row (fields : list string) : string := Str.join Str.TAB fields.

Definition tables : list (string * string) :=
  [ ("SERVICES", row ["serviceID"; "Services"; "origin"; "alpha";
                      "destination"; "beta"; "TranCost"; "fs"]);
    ("REQS", row ["reqs"; "origins"; "destinations"; "alphas"; "betas";
                  "contract_based"; "rhos"; "ws"]);
    ("HOLDING", row ["HoldingArcs"; "HoldingCost"]);
    ("PSI", row ["reqs"; "times"; "alphaPsi"; "betaPsi"]);
    ("EIN", row ["TimeNodes"; "ExecArcsIn"]);
    ("EOUT", row ["TimeNodes"; "ExecArcsOut"]) ].

(** In the three scans below the cursor [i] of the source is the part
    [lines[i:]] that is still to be read. *)

(** [take_table]: the lines up to a blank line or the end, and the
    cursor after them (on the blank line, if there is one). *)
Fixpoint take_table (lines : list string) : list string * list string :=
  match lines with
  | [] => ([], [])
  | ln :: r =>
      if Str.isempty ln then ([], lines)
      else let '(out, rest) := take_table r in (ln :: out, rest)
  end.

(** The first loop: the header lines up to the first line that starts
    with "Arcs ". *)
Fixpoint scan_header (lines : list string) (header : dict string string)
  : dict string string * list string :=
  match lines with
  | [] => (header, [])
  | ln :: r =>
      if Str.startswith "Arcs " ln then (header, lines)
      else if Str.isempty ln then scan_header r header
      else if Str.contains " " ln then
        match Str.split_first " " ln with
        | Some (key, val) => scan_header r (dict_set header key val)
        | None => scan_header r header
        end
      else scan_header r header
  end.

Fixpoint skip_blank (lines : list string) : list string :=
  match lines with
  | ln :: r => if Str.isempty ln then skip_blank r else lines
  | [] => []
  end.

(** The loop over the known tables. *)
Fixpoint scan_tables (tabs : list (string * string)) (lines : list string)
    (blocks : dict string (list string)) : dict string (list string) :=
  match tabs with
  | [] => blocks
  | (sec_name, header_row) :: more =>
      match skip_blank lines with
      | ln :: r =>
          if String.eqb ln header_row then
            let '(tab, rest) := take_table r in
            scan_tables more rest (dict_set blocks sec_name tab)
          else scan_tables more (ln :: r) blocks
      | [] => scan_tables more [] blocks
      end
  end.

Definition _section_blocks (text : string) : dict string (list string) :=
  let lines := map _clean (Str.splitlines text) in
  let '(header, rest) := scan_header lines [] in
  let blocks := dict_set [] "HEADER" (map (fun kv => fst kv ++ " " ++ snd kv) header) in
  let '(blocks, rest) :=
    match rest with
    | ln :: r =>
        if Str.startswith "Arcs " ln
        then (dict_set blocks "ARCS" [Str.drop 5 ln], r)
        else (blocks, rest)
    | [] => (blocks, rest)
    end in
  scan_tables tables rest blocks.

Definition int_keys : list string :=
  ["NodeSize"; "RequestSize"; "ServiceNoPerArc"; "ServiceCapacity"; "ServiceCost"].

Definition _parse_header_line (out : dict string hval) (ln : string)
  : result (dict string hval) :=
  match Str.split_first " " ln with
  | None => Raise (unpack_error 2 1)
  | Some (key, val) =>
      let val := Str.strip val in
      if existsb (String.eqb key) int_keys then
        z <- py_int_str val ;; Ok (dict_set out key (HLit (LInt z)))
      else if String.eqb key "FastServiceRatio" then
        x <- py_float_str val ;; Ok (dict_set out key (HFloat x))
      else if String.eqb key "TimePeriods" then
        v <- _lit val ;; Ok (dict_set out key (HLit v))
      else if String.eqb key "RevenueRange" then
        v <- _lit val ;; Ok (dict_set out key (HLit v))
      else if String.eqb key "ReqDemandRange" then
        v <- _lit val ;; Ok (dict_set out key (HLit v))
      else if String.eqb key "Trans/HoldingCost" then
        th <- _lit val ;;
        t <- lit_getitem th 0 ;;
        let out := dict_set out "TransCost" (HLit t) in
        h <- lit_getitem th 1 ;;
        Ok (dict_set out "HoldingCost" (HLit h))
      else if String.eqb key "Name" then
        Ok (dict_set out "Name" (HStr val))
      else
        Ok (dict_set out key (HStr val))
  end.

(** A [for] loop whose body can raise: the state after the last line, or
    the first exception. *)
Fixpoint for_lines {S : Type} (body : S -> string -> result S)
    (lines : list string) (st : S) : result S :=
  match lines with
  | [] => Ok st
  | ln :: r => st' <- body st ln ;; for_lines body r st'
  end.

Definition _parse_header (header_lines : list string) : result (dict string hval) :=
  for_lines _parse_header_line header_lines [].

Definition services_state : Type := list lit * dict lit float * dict lit float.

Definition _parse_services_row (st : services_state) (ln : string)
  : result services_state :=
  let '(services, cs, fs) := st in
  let parts := Str.split Str.TAB ln in
  p0 <- list_index parts 0 ;;
  sid <- py_int_str p0 ;;
  p1 <- list_index parts 1 ;;
  arc <- _lit p1 ;;
  p6 <- list_index parts 6 ;;
  c <- py_float_str p6 ;;
  p7 <- list_index parts 7 ;;
  f <- py_float_str p7 ;;
  let services := (services ++ [arc])%list in
  cs <- dict_set_lit cs arc c ;;
  fs <- dict_set_lit fs arc f ;;
  Ok (services, cs, fs).

Definition _parse_services (lines : list string) : result services_state :=
  for_lines _parse_services_row lines ([], [], []).

Record reqs_state : Type := {
  r_reqs : list Z;
  r_os : dict Z Z;
  r_ds : dict Z Z;
  r_alphas : dict Z Z;
  r_betas : dict Z Z;
  r_is_contract : dict Z bool;
  r_rhos : dict Z float;
  r_ws : dict Z Z
}.

Definition _parse_reqs_row (st : reqs_state) (ln : string) : result reqs_state :=
  let parts := Str.split Str.TAB ln in
  p0 <- list_index parts 0 ;;
  k <- py_int_str p0 ;;
  let reqs := (r_reqs st ++ [k])%list in
  p1 <- list_index parts 1 ;;
  o <- py_int_str p1 ;;
  let os := dict_set (r_os st) k o in
  p2 <- list_index parts 2 ;;
  d <- py_int_str p2 ;;
  let ds := dict_set (r_ds st) k d in
  p3 <- list_index parts 3 ;;
  a <- py_int_str p3 ;;
  let alphas := dict_set (r_alphas st) k a in
  p4 <- list_index parts 4 ;;
  b <- py_int_str p4 ;;
  let betas := dict_set (r_betas st) k b in
  p5 <- list_index parts 5 ;;
  let is_contract :=
    dict_set (r_is_contract st) k (String.eqb (Str.lower (Str.strip p5)) "true") in
  p6 <- list_index parts 6 ;;
  rho <- py_float_str p6 ;;
  let rhos := dict_set (r_rhos st) k rho in
  p7 <- list_index parts 7 ;;
  w <- py_int_str p7 ;;
  let ws := dict_set (r_ws st) k w in
  Ok {| r_reqs := reqs; r_os := os; r_ds := ds; r_alphas := alphas;
        r_betas := betas; r_is_contract := is_contract; r_rhos := rhos;
        r_ws := ws |}.

Definition _parse_reqs (lines : list string) : result reqs_state :=
  for_lines _parse_reqs_row lines
    {| r_reqs := []; r_os := []; r_ds := []; r_alphas := []; r_betas := [];
       r_is_contract := []; r_rhos := []; r_ws := [] |}.

Definition _parse_holding_row (st : list lit * dict lit float) (ln : string)
  : result (list lit * dict lit float) :=
  let '(arcsH, chs) := st in
  '(a_str, cost_str) <- unpack2 (Str.split Str.TAB ln) ;;
  a <- _lit a_str ;;
  c <- py_float_str cost_str ;;
  let arcsH := (arcsH ++ [a])%list in
  chs <- dict_set_lit chs a c ;;
  Ok (arcsH, chs).

Definition _parse_holding (lines : list string) : result (list lit * dict lit float) :=
  for_lines _parse_holding_row lines ([], []).

Definition psis_state : Type := dict (Z * Z) float * dict (Z * Z) float.

Definition _parse_psis_row (st : psis_state) (ln : string) : result psis_state :=
  let '(alphaPsis, betaPsis) := st in
  '(k_str, t_str, apsi_str, bpsi_str) <- unpack4 (Str.split Str.TAB ln) ;;
  k <- py_int_str k_str ;;
  t <- py_int_str t_str ;;
  a <- py_float_str apsi_str ;;
  let alphaPsis := dict_set alphaPsis (k, t) a in
  b <- py_float_str bpsi_str ;;
  let betaPsis := dict_set betaPsis (k, t) b in
  Ok (alphaPsis, betaPsis).

Definition _parse_psis (lines : list string) : result psis_state :=
  for_lines _parse_psis_row lines ([], []).

Definition _parse_exec_lists_row (out : dict lit lit) (ln : string)
  : result (dict lit lit) :=
  '(tn_str, arcs_str) <- unpack2 (Str.split Str.TAB ln) ;;
  tn <- _lit tn_str ;;
  arcs <- (if Str.isempty arcs_str then Ok (LList []) else _lit arcs_str) ;;
  dict_set_lit out tn arcs.

Definition _parse_exec_lists (lines : list string) : result (dict lit lit) :=
  for_lines _parse_exec_lists_row lines [].

(** ** Public API *)

(** [header[key]] *)
Definition header_item (header : dict string hval) (key : string) : result hval :=
  match dict_get header key with
  | Some v => Ok v
  | None => Raise (KeyError key)
  end.

(** [{a: float(header["ServiceCapacity"]) for a in services}]: the
    comprehension adds one arc after the other to the dict built so far. *)
Fixpoint capacity_loop (header : dict string hval) (l : list lit)
    (us : dict lit float) : result (dict lit float) :=
  match l with
  | [] => Ok us
  | a :: r =>
      v <- header_item header "ServiceCapacity" ;;
      x <- py_float v ;;
      us <- dict_set_lit us a x ;;
      capacity_loop header r us
  end.

Definition uniform_capacity (header : dict string hval) (services : list lit)
  : result (dict lit float) :=
  capacity_loop header services [].

(** The constructor call [SSNDInstance(...)] of [load_instances_zip]: the
    keyword arguments are evaluated from first to last. *)
Definition make_instance (N K F C : Z) (header : dict string hval) (arcs : lit)
    (sv : services_state) (rq : reqs_state)
    (hd : list lit * dict lit float) (ps : psis_state)
    (ein eout : dict lit lit) : result SSNDInstance :=
  let '(services_, cs_, fs_) := sv in
  let name_ :=
    match dict_get header "Name" with
    | Some v => v
    | None => HStr ("ins_N" ++ string_of_Z N ++ "_K" ++ string_of_Z K
                    ++ "_Freq" ++ string_of_Z F ++ "_sCap" ++ string_of_Z C)
    end in
  v <- header_item header "NodeSize" ;; NodeSize_ <- py_int v ;;
  v <- header_item header "TimePeriods" ;; TimePeriods_ <- py_items v ;;
  v <- header_item header "RequestSize" ;; RequestSize_ <- py_int v ;;
  v <- header_item header "ServiceNoPerArc" ;; ServiceNoPerArc_ <- py_int v ;;
  v <- header_item header "ServiceCapacity" ;; ServiceCapacity_ <- py_int v ;;
  v <- header_item header "FastServiceRatio" ;; FastServiceRatio_ <- py_float v ;;
  v <- header_item header "RevenueRange" ;; RevenueRange_ <- py_items v ;;
  v <- header_item header "ReqDemandRange" ;; ReqDemandRange_ <- py_items v ;;
  v <- header_item header "ServiceCost" ;; ServiceCost_ <- py_int v ;;
  v <- header_item header "TransCost" ;; TransCost_ <- py_int v ;;
  v <- header_item header "HoldingCost" ;; HoldingCost_ <- py_int v ;;
  physical_arcs_ <- lit_items arcs ;;
  us_ <- uniform_capacity header services_ ;;
  Ok {| name := name_;
        NodeSize := NodeSize_;
        TimePeriods := TimePeriods_;
        RequestSize := RequestSize_;
        ServiceNoPerArc := ServiceNoPerArc_;
        ServiceCapacity := ServiceCapacity_;
        FastServiceRatio := FastServiceRatio_;
        RevenueRange := RevenueRange_;
        ReqDemandRange := ReqDemandRange_;
        ServiceCost := ServiceCost_;
        TransCost := TransCost_;
        HoldingCost := HoldingCost_;
        physical_arcs := physical_arcs_;
        tnodes := [];
        services := services_;
        cs := cs_;
        fs := fs_;
        us := us_;
        reqs := r_reqs rq; os := r_os rq; ds := r_ds rq;
        alphas := r_alphas rq; betas := r_betas rq;
        is_contract := r_is_contract rq; rhos := r_rhos rq; ws := r_ws rq;
        holding_arcs := fst hd; chs := snd hd;
        alphaPsis := fst ps; betaPsis := snd ps;
        arcsEin := ein; arcsEout := eout |}.

(** [blocks.get(sec, [])] *)
Definition block (blocks : dict string (list string)) (sec : string) : list string :=
  match dict_get blocks sec with
  | Some ls => ls
  | None => []
  end.

(** The body of the loop of [load_instances_zip] for one matching entry:
    from the decoded text to the instance. *)
Definition load_instance_text (N K F C : Z) (text : string) : result SSNDInstance :=
  let blocks := _section_blocks text in
  header <- _parse_header (block blocks "HEADER") ;;
  arcs <- match dict_get blocks "ARCS" with
          | Some ls => a <- list_index ls 0 ;; _lit a
          | None => Ok (LList [])
          end ;;
  sv <- _parse_services (block blocks "SERVICES") ;;
  rq <- _parse_reqs (block blocks "REQS") ;;
  hd <- (if dict_mem blocks "HOLDING" then _parse_holding (block blocks "HOLDING")
         else Ok ([], [])) ;;
  ps <- (if dict_mem blocks "PSI" then _parse_psis (block blocks "PSI")
         else Ok ([], [])) ;;
  ein <- (if dict_mem blocks "EIN" then _parse_exec_lists (block blocks "EIN")
          else Ok []) ;;
  eout <- (if dict_mem blocks "EOUT" then _parse_exec_lists (block blocks "EOUT")
           else Ok []) ;;
  make_instance N K F C header arcs sv rq hd ps ein eout.

(** ** The file-name pattern [_INSTANCE_RE]

    [ins_N(\d+)_K(\d+)_Freq(\d+)_sCap(\d+)\.txt$].  Every [\d+] is followed
    in the pattern by a character that is not a digit, so the only way to
    match is to take the whole run of digits; [$] matches at the end of
    the string and just before a line feed that ends it. *)

(** The literal [p] at the start of [s]; the rest. *)
Definition expect (p s : string) : option string :=
  if Str.startswith p s then Some (Str.drop (String.length p) s) else None.

(** The longest run of digits at the start of [s], and the rest. *)
Fixpoint span_digits (s : string) : string * string :=
  match s with
  | String c r =>
      if Str.isdigit c then let '(d, rest) := span_digits r in (String c d, rest)
      else ("", s)
  | EmptyString => ("", "")
  end.

(** [\d+] *)
Definition digits1 (s : string) : option (string * string) :=
  match span_digits s with
  | (EmptyString, _) => None
  | (d, rest) => Some (d, rest)
  end.

(** [$] *)
Definition at_end (s : string) : bool :=
  String.eqb s "" || String.eqb s (String Str.LF "").

(** A match of the pattern that starts at the first character of [s]: the
    four groups. *)
Definition instance_re_match (s : string) : option (string * string * string * string) :=
  match expect "ins_N" s with None => None | Some s =>
  match digits1 s with None => None | Some (gN, s) =>
  match expect "_K" s with None => None | Some s =>
  match digits1 s with None => None | Some (gK, s) =>
  match expect "_Freq" s with None => None | Some s =>
  match digits1 s with None => None | Some (gF, s) =>
  match expect "_sCap" s with None => None | Some s =>
  match digits1 s with None => None | Some (gC, s) =>
  match expect ".txt" s with None => None | Some s =>
  if at_end s then Some (gN, gK, gF, gC) else None
  end end end end end end end end end.

(** [_INSTANCE_RE.search(s)]: the match at the leftmost position that has
    one. *)
Fixpoint instance_re_search (s : string) : option (string * string * string * string) :=
  match instance_re_match s with
  | Some m => Some m
  | None =>
      match s with
      | String _ r => instance_re_search r
      | EmptyString => None
      end
  end.

(** [name.split("/")[-1]] *)
Definition basename (name : string) : string :=
  last (Str.split "/" name) "".

(** The key [(N, K, F, C)] of an archive entry, [None] when the entry is
    skipped: lines 255 to 258. *)
Definition instance_key (name : string) : option (result (Z * Z * Z * Z)) :=
  match instance_re_search (basename name) with
  | None => None
  | Some (gN, gK, gF, gC) =>
      Some (N <- py_int_str gN ;; K <- py_int_str gK ;;
            F <- py_int_str gF ;; C <- py_int_str gC ;; Ok (N, K, F, C))
  end.

(** An archive: its entries in order, each with its name and its text
    (already decoded).  [zf.open(name)] reads the last entry of that
    name. *)
Definition archive : Type := list (string * string).

Definition zf_read (zf : archive) (name : string) : string :=
  fold_left (fun acc e => if String.eqb (fst e) name then snd e else acc) zf "".

Definition load_instances_zip (zf : archive)
  : result (dict (Z * Z * Z * Z) SSNDInstance) :=
  (fix loop (names : list string) (out : dict (Z * Z * Z * Z) SSNDInstance) :=
     match names with
     | [] => Ok out
     | name :: r =>
         match instance_key name with
         | None => loop r out
         | Some key =>
             '(N, K, F, C) <- key ;;
             inst <- load_instance_text N K F C (zf_read zf name) ;;
             loop r (dict_set out (N, K, F, C) inst)
         end
     end) (map fst zf) [].

(** ** The scenario file parser *)

(** [[int(x) for x in draws_str.split(";") if x != ""]] *)
Definition parse_draws (draws_str : string) : result (list Z) :=
  mapM py_int_str
    (filter (fun x => negb (String.eqb x "")) (Str.split ";" draws_str)).

Definition w_state : Type := dict Z Z * dict Z (list Z).

Definition _w_row (st : w_state) (ln : string) : result w_state :=
  let '(w_mu, rnd_ws) := st in
  '(req_str, mu_str, draws_str) <- unpack3 (Str.split Str.TAB ln) ;;
  k <- py_int_str req_str ;;
  mu <- py_int_str mu_str ;;
  let w_mu := dict_set w_mu k mu in
  draws <- parse_draws draws_str ;;
  let rnd_ws := dict_set rnd_ws k draws in
  Ok (w_mu, rnd_ws).

(** The body of the loop of [load_w_scenarios_zip] for one matching
    entry: from the decoded text to the scenario set. *)
Definition load_w_scenarios_text (N K F C : Z) (nu_ : float) (text : string)
  : result WScenarioSet :=
  let lines :=
    filter (fun l => negb (Str.isempty l)) (map Str.strip (Str.splitlines text)) in
  let lines :=
    match lines with
    | l0 :: r => if Str.startswith "reqs" l0 then r else lines
    | [] => lines
    end in
  '(w_mu_, rnd_ws_) <- for_lines _w_row lines ([], []) ;;
  Ok {| node_size := N; Kmax := K; freq := F; serv_cap := C; nu := nu_;
        w_mu := w_mu_; rnd_ws := rnd_ws_ |}.

End Loader.

(* ================================================================== *)
(** * Worked examples and auxiliary notions *)




(** The exceptions [int], [float], [list] and [tuple] raise. *)
Definition conversion_error (e : exn) : Prop :=
  match e with
  | TypeError _ | ValueError _ | OverflowError _ => True
  | KeyError _ | IndexError _ => False
  end.

(** The HEADER keys the constructor call reads with [header[...]], in the
    order of the call. *)
Definition required_keys : list string :=
  ["NodeSize"; "TimePeriods"; "RequestSize"; "ServiceNoPerArc";
   "ServiceCapacity"; "FastServiceRatio"; "RevenueRange"; "ReqDemandRange";
   "ServiceCost"; "TransCost"; "HoldingCost"].


(** The lines in front of the first line that starts with "Arcs ". *)
Fixpoint header_prefix (lines : list string) : list string :=
  match lines with
  | [] => []
  | ln :: r => if Str.startswith "Arcs " ln then [] else ln :: header_prefix r
  end.

(** The key-value pairs of a list of lines: a line that contains a space
    assigns the part after its first space to the part before it; any
    other line is passed over. *)
Definition header_pairs (lines : list string) : dict string string :=
  fold_left
    (fun h ln => match Str.split_first " " ln with
                 | Some (key, val) => dict_set h key val
                 | None => h
                 end)
    lines [].




(** Key comparison decides equality. *)
Class KeyLaws (K : Type) {key : Key K} : Prop :=
  key_eqb_eq : forall x y : K, key_eqb x y = true <-> x = y.
Arguments KeyLaws K {key}.

(** The keys of a dict that is filled row by row, against the list [seen]
    of the keys of the rows: the keys are pairwise distinct, they are the
    elements of [seen], and they are [seen] itself while no key repeats. *)
Definition keys_track {K : Type} (keys seen : list K) : Prop :=
  NoDup keys /\ (forall x, In x keys <-> In x seen) /\ (NoDup seen -> keys = seen).

Section Invariants.
Context `{PyFloat}.

(** The conversions the constructor call applies to the HEADER values. *)
Inductive conversion : Type := ToInt | ToFloat | ToItems.

Definition converts (c : conversion) (v : hval) : result unit :=
  match c with
  | ToInt => _ <- py_int v ;; Ok tt
  | ToFloat => _ <- py_float v ;; Ok tt
  | ToItems => _ <- py_items v ;; Ok tt
  end.

(** The required HEADER fields with their conversions, in the order of
    the constructor call. *)
Definition required_fields : list (string * conversion) :=
  [ ("NodeSize", ToInt); ("TimePeriods", ToItems); ("RequestSize", ToInt);
    ("ServiceNoPerArc", ToInt); ("ServiceCapacity", ToInt);
    ("FastServiceRatio", ToFloat); ("RevenueRange", ToItems);
    ("ReqDemandRange", ToItems); ("ServiceCost", ToInt); ("TransCost", ToInt);
    ("HoldingCost", ToInt) ].

(** The exception of the first field that is absent or does not convert,
    if there is one. *)
Fixpoint first_field_error (header : dict string hval)
    (fields : list (string * conversion)) : option exn :=
  match fields with
  | [] => None
  | (key, c) :: r =>
      match dict_get header key with
      | None => Some (KeyError key)
      | Some v =>
          match converts c v with
          | Raise e => Some e
          | Ok _ => first_field_error header r
          end
      end
  end.


(** The loop invariant of [_parse_services]. *)
Definition services_inv (st : services_state) : Prop :=
  let '(services, cs, fs) := st in
  keys_track (dict_keys cs) services /\ keys_track (dict_keys fs) services.

(** The loop invariant of [_parse_reqs]. *)
Definition reqs_inv (st : reqs_state) : Prop :=
  keys_track (dict_keys (r_os st)) (r_reqs st) /\
  keys_track (dict_keys (r_ds st)) (r_reqs st) /\
  keys_track (dict_keys (r_alphas st)) (r_reqs st) /\
  keys_track (dict_keys (r_betas st)) (r_reqs st) /\
  keys_track (dict_keys (r_is_contract st)) (r_reqs st) /\
  keys_track (dict_keys (r_rhos st)) (r_reqs st) /\
  keys_track (dict_keys (r_ws st)) (r_reqs st).


End Invariants.

Module Sample.

#[local] Existing Instance DecFloat.dec_float.

Definition nl : string := String Str.LF "".

Definition unlines (ls : list string) : string :=
  String.concat "" (map (fun l => l ++ nl) ls).

Definition header_lines : list string :=
  [ "NodeSize 3"; "TimePeriods [0,1]"; "RequestSize 1"; "ServiceNoPerArc 1";
    "ServiceCapacity 50"; "FastServiceRatio 0.5"; "RevenueRange (1,2),(3,4)";
    "ReqDemandRange (1,10)"; "Trans/HoldingCost (2,1)"; "Name T1" ].

Definition services_header : string :=
  row ["serviceID"; "Services"; "origin"; "alpha"; "destination"; "beta";
       "TranCost"; "fs"].

Definition reqs_header : string :=
  row ["reqs"; "origins"; "destinations"; "alphas"; "betas"; "contract_based";
       "rhos"; "ws"].

Definition service_row : string :=
  row ["1"; "((1,0),(2,1))"; "1"; "0"; "2"; "1"; "2.0"; "5.0"].

Definition req_row : string :=
  row ["1"; "1"; "2"; "0"; "1"; "true"; "3.5"; "10"].

(** An instance file: the header lines, the physical arcs, and the
    SERVICES and REQS tables with the given rows. *)
Definition file (header service_rows req_rows : list string) : string :=
  unlines (header ++ ["Arcs [(1,2),(2,3)]"; ""]
           ++ services_header :: service_rows ++ [""]
           ++ reqs_header :: req_rows)%list.

(** The file of the end-to-end example, as the specification words it. *)
Definition text : string := file header_lines [service_row] [req_row].

(** The same file with a ServiceCost line at the end of its header. *)
Definition text_with_cost : string :=
  file (header_lines ++ ["ServiceCost 7"])%list [service_row] [req_row].

(** Two SERVICES rows for one arc, with different costs. *)
Definition text_same_arc_twice : string :=
  file (header_lines ++ ["ServiceCost 7"])%list
       [service_row; row ["2"; "((1,0),(2,1))"; "1"; "0"; "2"; "1"; "4.0"; "6.0"]]
       [req_row].

(** Two REQS rows for one request id. *)
Definition text_same_req_twice : string :=
  file (header_lines ++ ["ServiceCost 7"])%list [service_row]
       [req_row; row ["1"; "2"; "3"; "0"; "1"; "false"; "1.5"; "20"]].


Definition arc : lit := LTuple [LTuple [LInt 1; LInt 0]; LTuple [LInt 2; LInt 1]].

(** The instance [text_with_cost] is parsed to, with the decimal floats. *)
Definition instance : SSNDInstance :=
  {| name := HStr "T1";
     NodeSize := 3;
     TimePeriods := [HLit (LInt 0); HLit (LInt 1)];
     RequestSize := 1;
     ServiceNoPerArc := 1;
     ServiceCapacity := 50;
     FastServiceRatio := DecFloat.Fin (1 # 2);
     RevenueRange := [HLit (LTuple [LInt 1; LInt 2]); HLit (LTuple [LInt 3; LInt 4])];
     ReqDemandRange := [HLit (LInt 1); HLit (LInt 10)];
     ServiceCost := 7;
     TransCost := 2;
     HoldingCost := 1;
     physical_arcs := [LTuple [LInt 1; LInt 2]; LTuple [LInt 2; LInt 3]];
     tnodes := [];
     services := [arc];
     cs := [(arc, DecFloat.Fin (2 # 1))];
     fs := [(arc, DecFloat.Fin (5 # 1))];
     us := [(arc, DecFloat.Fin (50 # 1))];
     reqs := [1];
     os := [(1, 1)];
     ds := [(1, 2)];
     alphas := [(1, 0)];
     betas := [(1, 1)];
     is_contract := [(1, true)];
     rhos := [(1, DecFloat.Fin (7 # 2))];
     ws := [(1, 10)];
     holding_arcs := [];
     chs := [];
     alphaPsis := [];
     betaPsis := [];
     arcsEin := [];
     arcsEout := [] |}.

(** A file whose header stops after TimePeriods, and gives it an
    integer. *)
Definition short_header_text : string :=
  unlines ["NodeSize 3"; "TimePeriods 5"].

(** A file with one line without a space in front of its Arcs line. *)
Definition text_with_bare_word : string :=
  unlines ["Foo"; "Arcs []"].

End Sample.

(* ================================================================== *)
(** * Further notions *)

(** The first and the last character of a string. *)
Definition first_char (s : string) : option ascii :=
  match s with
  | String c _ => Some c
  | EmptyString => None
  end.

Definition last_char (s : string) : option ascii := first_char (Str.rev s).

(** No white space at either end. *)
Definition trimmed (s : string) : Prop :=
  (forall c, first_char s = Some c -> Str.isspace c = false) /\
  (forall c, last_char s = Some c -> Str.isspace c = false).

(** The names of the six table sections. *)
Definition table_names : list string := map fst tables.

Section FurtherNotions.
Context `{PyFloat}.

(** The kind of value [_parse_header] stores under a key: an integer
    under the five integer keys, a float under FastServiceRatio, a literal
    value under the three literal keys, a literal value or a raw string
    under TransCost and HoldingCost (set from the Trans/HoldingCost tuple
    or passed through from a line of their own), and a raw string under
    any other key. *)
Definition header_entry_typed (key : string) (v : hval) : Prop :=
  if existsb (String.eqb key) int_keys then exists z, v = HLit (LInt z)
  else if String.eqb key "FastServiceRatio" then exists x, v = HFloat x
  else if existsb (String.eqb key) ["TimePeriods"; "RevenueRange"; "ReqDemandRange"]
  then exists l, v = HLit l
  else if existsb (String.eqb key) ["TransCost"; "HoldingCost"]
  then (exists l, v = HLit l) \/ (exists s, v = HStr s)
  else exists s, v = HStr s.

Definition header_typed (header : dict string hval) : Prop :=
  forall key v, dict_get header key = Some v -> header_entry_typed key v.

(** The rows [load_w_scenarios_zip] parses: the stripped lines that are
    not blank, without a first line that starts with "reqs". *)
Definition scenario_rows (text : string) : list string :=
  let lines :=
    filter (fun l => negb (Str.isempty l)) (map Str.strip (Str.splitlines text)) in
  match lines with
  | l0 :: r => if Str.startswith "reqs" l0 then r else lines
  | [] => lines
  end.

(** The loop of [load_instances_zip] from a given point on: the names
    still to visit and the mapping built so far. *)
Fixpoint instances_loop (zf : archive) (names : list string)
    (out : dict (Z * Z * Z * Z) SSNDInstance)
  : result (dict (Z * Z * Z * Z) SSNDInstance) :=
  match names with
  | [] => Ok out
  | name :: r =>
      match instance_key name with
      | None => instances_loop zf r out
      | Some key =>
          '(N, K, F, C) <- key ;;
          inst <- load_instance_text N K F C (zf_read zf name) ;;
          instances_loop zf r (dict_set out (N, K, F, C) inst)
      end
  end.

End FurtherNotions.

(** ** The file-name pattern [_W_RE]

    [wScenarios_N(\d+)_K(\d+)_Freq(\d+)_sCap(\d+)_nu([\d\.]+)\.txt$].  The
    last group is greedy and what follows it starts with a dot, which the
    group accepts too, so the match has to give characters back: the
    matcher takes a further character first and stops after the current
    one when that fails. *)












(** ** Further sample files *)

Module Sample2.

(** The file of [Sample.text_with_cost] with a comment line between the
    Arcs line and the SERVICES table. *)
Definition text_with_comment : string :=
  Sample.unlines
    (Sample.header_lines ++
     ["ServiceCost 7"; "Arcs [(1,2),(2,3)]"; ""; "# tables";
      Sample.services_header; Sample.service_row])%list.

(** A file without an Arcs line. *)
Definition text_without_arcs : string :=
  Sample.unlines ["NodeSize 3"; ""; Sample.services_header; "Name T1"].

(** A second SERVICES row for the arc of [Sample.service_row]. *)
Definition service_row_again : string :=
  row ["2"; "((1,0),(2,1))"; "1"; "0"; "2"; "1"; "4.0"; "6.0"].

Definition holding_row : string := row ["((1,0),(1,1))"; "1.5"].

Definition holding_arc : lit :=
  LTuple [LTuple [LInt 1; LInt 0]; LTuple [LInt 1; LInt 1]].

Definition holding_row_with_list : string := row ["[(1,0),(1,1)]"; "1.5"].

Definition psi_row : string := row ["1"; "0"; "2.0"; "3.0"].

Definition scenario_header : string := row ["reqs"; "ws"; "rnd_ws"].

Definition scenario_text : string :=
  Sample.unlines [row ["1"; "4"; "3;;5;"]; ""; row ["2"; "6"; "7"]].

Definition scenario_text_short_row : string :=
  Sample.unlines [row ["1"; "4"; "3;5"]; row ["2"; "6"]].

(** An archive with a file that is no instance and one instance file. *)
Definition zip_with_readme : archive :=
  [ ("readme.txt", "about"); ("data/ins_N10_K5_Freq2_sCap20.txt", Sample.text_with_cost) ].

(** An archive whose second instance file lacks its ServiceCost line. *)
Definition zip_with_bad_entry : archive :=
  [ ("ins_N10_K5_Freq2_sCap20.txt", Sample.text_with_cost);
    ("ins_N3_K1_Freq1_sCap50.txt", Sample.text) ].

End Sample2.


(* ================================================================== *)
(** * Basic facts *)

(** ** The error monad *)

Lemma bind_ok {A B : Type} (m : result A) (k : A -> result B) (b : B) :
  bind m k = Ok b -> exists a, m = Ok a /\ k a = Ok b.
Proof. destruct m as [a|e]; simpl; [eauto | discriminate]. Qed.

Lemma bind_raise {A B : Type} (m : result A) (k : A -> result B) (e : exn) :
  m = Raise e -> bind m k = Raise e.
Proof. intros ->; reflexivity. Qed.

(** Inversion of a successful chain of binds, one step at a time. *)
Ltac inv_bind H :=
  let x := fresh "x" in
  let Hx := fresh "Hx" in
  apply bind_ok in H; destruct H as (x & Hx & H).

Lemma for_lines_app {S : Type} (body : S -> string -> result S) l1 l2 st :
  for_lines body (l1 ++ l2)%list st =
  bind (for_lines body l1 st) (for_lines body l2).
Proof.
  revert st; induction l1 as [|ln l1 IH]; intros st; simpl; [reflexivity|].
  destruct (body st ln); simpl; auto.
Qed.

(** An invariant of the loop state holds after a successful loop. *)
Lemma for_lines_invariant {S : Type} (body : S -> string -> result S)
    (I : S -> Prop) :
  (forall st ln st', I st -> body st ln = Ok st' -> I st') ->
  forall lines st st', I st -> for_lines body lines st = Ok st' -> I st'.
Proof.
  intros Hstep; induction lines as [|ln r IH]; intros st st' Hi Hrun; simpl in Hrun.
  - inversion Hrun; subst; exact Hi.
  - inv_bind Hrun. eapply IH; [eapply Hstep|]; eauto.
Qed.

(** A line whose body raises in every state makes the loop raise. *)
Lemma for_lines_raises {S : Type} (body : S -> string -> result S) (ln : string) :
  (forall st, is_ok (body st ln) = false) ->
  forall lines st, In ln lines -> is_ok (for_lines body lines st) = false.
Proof.
  intros Hbad; induction lines as [|l r IH]; intros st Hin; [destruct Hin|].
  simpl. destruct (body st l) as [st'|e] eqn:Hb; simpl; [|reflexivity].
  destruct Hin as [->|Hin]; [|auto].
  specialize (Hbad st); rewrite Hb in Hbad; discriminate.
Qed.

(** ** Strings *)

Lemma rev_acc_app s a b : Str.rev_acc s (a ++ b) = Str.rev_acc s a ++ b.
Proof. revert a; induction s as [|c s IH]; intros a; simpl; [reflexivity|]. apply (IH (String c a)). Qed.

Lemma rev_acc_rev_acc t cur acc :
  Str.rev_acc (Str.rev_acc t cur) acc = Str.rev_acc cur (t ++ acc).
Proof.
  revert cur; induction t as [|d t IH]; intros cur; simpl; [reflexivity|].
  rewrite IH; reflexivity.
Qed.

Lemma append_empty_r (s : string) : s ++ "" = s.
Proof. induction s; simpl; congruence. Qed.

Lemma append_assoc (a b c : string) : (a ++ b) ++ c = a ++ (b ++ c).
Proof. induction a; simpl; congruence. Qed.

Lemma rev_rev_acc t cur : Str.rev (Str.rev_acc t cur) = Str.rev cur ++ t.
Proof.
  unfold Str.rev. rewrite rev_acc_rev_acc, append_empty_r.
  change t with ("" ++ t) at 1. apply rev_acc_app.
Qed.

Lemma str_rev_involutive (s : string) : Str.rev (Str.rev s) = s.
Proof. unfold Str.rev at 2. rewrite rev_rev_acc. reflexivity. Qed.




Lemma split_first_contains c s :
  Str.contains c s = true <-> exists k v, Str.split_first c s = Some (k, v).
Proof.
  induction s as [|d s IH]; simpl.
  - split; [discriminate | intros (k & v & Hkv); discriminate].
  - destruct (Ascii.eqb d c); simpl.
    + split; eauto.
    + rewrite IH. split.
      * intros (k & v & ->); eauto.
      * intros (k & v & Hkv). destruct (Str.split_first c s) as [[k' v']|]; [eauto | discriminate].
Qed.

Lemma split_first_none c s :
  Str.contains c s = false <-> Str.split_first c s = None.
Proof.
  pose proof (split_first_contains c s) as Hc.
  destruct (Str.contains c s); destruct (Str.split_first c s) as [[k v]|]; split; intros; try reflexivity; try discriminate.
  - destruct Hc as [Hc _]. destruct (Hc eq_refl) as (k & v & Hkv); discriminate.
  - destruct Hc as [_ Hc]. assert (false = true) by (apply Hc; eauto). discriminate.
Qed.

(** ** Key comparison *)


#[export] Instance string_key_laws : KeyLaws string.
Proof. intros x y; apply String.eqb_eq. Qed.

#[export] Instance Z_key_laws : KeyLaws Z.
Proof. intros x y; apply Z.eqb_eq. Qed.

Lemma lit_eqb_eq (v w : lit) : lit_eqb v w = true <-> v = w.
Proof.
  revert w; induction v as [z|xs IH|xs IH] using lit_ind'; intros [z'|ys|ys];
    simpl; try (split; [discriminate | intros E; discriminate E]).
  - rewrite Z.eqb_eq; split; congruence.
  - revert ys; induction IH as [|x r Hx _ IHr]; intros [|y ys];
      try (split; [discriminate | intros E; discriminate E]); [tauto|].
    rewrite andb_true_iff, Hx, IHr. split; [intros [-> E]; congruence | intros E; inversion E; auto].
  - revert ys; induction IH as [|x r Hx _ IHr]; intros [|y ys];
      try (split; [discriminate | intros E; discriminate E]); [tauto|].
    rewrite andb_true_iff, Hx, IHr. split; [intros [-> E]; congruence | intros E; inversion E; auto].
Qed.

#[export] Instance lit_key_laws : KeyLaws lit.
Proof. exact lit_eqb_eq. Qed.

#[export] Instance pair_key_laws {A B : Type} `{KeyLaws A} `{KeyLaws B} : KeyLaws (A * B).
Proof.
  intros [a b] [a' b']; unfold key_eqb, pair_key; simpl.
  rewrite andb_true_iff. rewrite (key_eqb_eq a a'), (key_eqb_eq b b').
  split; [intros [-> ->]; reflexivity | intros E; inversion E; auto].
Qed.

Lemma key_eqb_refl {K : Type} `{KeyLaws K} (k : K) : key_eqb k k = true.
Proof. apply key_eqb_eq; reflexivity. Qed.

Lemma key_eqb_neq {K : Type} `{KeyLaws K} (k k' : K) : k <> k' -> key_eqb k k' = false.
Proof.
  intros Hne. destruct (key_eqb k k') eqn:E; [|reflexivity].
  apply key_eqb_eq in E; contradiction.
Qed.

(** ** Dictionaries *)

Section DictFacts.
Context {K V : Type} `{KeyLaws K}.

Lemma dict_get_In (d : dict K V) (k : K) :
  In k (dict_keys d) <-> exists v, dict_get d k = Some v.
Proof.
  induction d as [|[k' v'] r IH]; simpl.
  - split; [tauto | intros (v & Hv); discriminate].
  - destruct (key_eqb k' k) eqn:E.
    + apply key_eqb_eq in E; subst. split; eauto.
    + rewrite <- IH. split; [intros [->|Hin]; [|exact Hin] | tauto].
      rewrite key_eqb_refl in E; discriminate.
Qed.

Lemma dict_get_None (d : dict K V) (k : K) :
  ~ In k (dict_keys d) <-> dict_get d k = None.
Proof.
  rewrite dict_get_In. destruct (dict_get d k) as [v|]; split; intros Hx; try congruence.
  - exfalso; apply Hx; eauto.
  - intros (v & Hv); discriminate.
Qed.

Lemma dict_keys_set (d : dict K V) (k : K) (v : V) :
  dict_keys (dict_set d k v) =
  if dict_mem d k then dict_keys d else (dict_keys d ++ [k])%list.
Proof.
  unfold dict_mem. induction d as [|[k' v'] r IH]; simpl; [reflexivity|].
  destruct (key_eqb k' k) eqn:E; simpl; [reflexivity|].
  rewrite IH. destruct (dict_get r k); reflexivity.
Qed.

Lemma dict_mem_In (d : dict K V) (k : K) :
  dict_mem d k = true <-> In k (dict_keys d).
Proof.
  unfold dict_mem. rewrite dict_get_In.
  destruct (dict_get d k) as [v|]; split; intros Hx; eauto; try discriminate.
  destruct Hx as (v & Hv); discriminate.
Qed.

Lemma dict_keys_set_In (d : dict K V) (k : K) (v : V) (x : K) :
  In x (dict_keys (dict_set d k v)) <-> In x (dict_keys d) \/ x = k.
Proof.
  rewrite dict_keys_set. destruct (dict_mem d k) eqn:E.
  - apply dict_mem_In in E. split; [tauto | intros [Hx| ->]; assumption].
  - rewrite in_app_iff; simpl. split; [intros [Hx|[->|[]]]; auto | intros [Hx| ->]; auto].
Qed.

Lemma dict_keys_set_NoDup (d : dict K V) (k : K) (v : V) :
  NoDup (dict_keys d) -> NoDup (dict_keys (dict_set d k v)).
Proof.
  intros Hnd. rewrite dict_keys_set. destruct (dict_mem d k) eqn:E; [exact Hnd|].
  assert (Hk : ~ In k (dict_keys d)).
  { intros Hin; apply dict_mem_In in Hin; congruence. }
  clear E. induction (dict_keys d) as [|x r IH]; simpl.
  - constructor; [tauto | constructor].
  - inversion Hnd; subst. constructor.
    + rewrite in_app_iff; simpl. intros [Hx|[->|[]]]; [contradiction|].
      apply Hk; left; reflexivity.
    + apply IH; [assumption|]. intros Hin; apply Hk; right; exact Hin.
Qed.

Lemma dict_get_set_same (d : dict K V) (k : K) (v : V) :
  dict_get (dict_set d k v) k = Some v.
Proof.
  induction d as [|[k' v'] r IH]; simpl.
  - rewrite key_eqb_refl; reflexivity.
  - destruct (key_eqb k' k) eqn:E; simpl; rewrite E; [reflexivity | exact IH].
Qed.

Lemma dict_get_set_other (d : dict K V) (k k' : K) (v : V) :
  k <> k' -> dict_get (dict_set d k v) k' = dict_get d k'.
Proof.
  intros Hne. induction d as [|[k0 v0] r IH]; simpl.
  - rewrite (key_eqb_neq Hne); reflexivity.
  - destruct (key_eqb k0 k) eqn:E; simpl.
    + apply key_eqb_eq in E; subst k0. rewrite (key_eqb_neq Hne); reflexivity.
    + destruct (key_eqb k0 k'); [reflexivity | exact IH].
Qed.


Lemma keys_track_nil : keys_track (@nil K) [].
Proof. split; [constructor | split; [tauto | reflexivity]]. Qed.

Lemma keys_track_set (d : dict K V) (seen : list K) (k : K) (v : V) :
  keys_track (dict_keys d) seen ->
  keys_track (dict_keys (dict_set d k v)) (seen ++ [k]).
Proof.
  intros (Hnd & Hin & Heq). split; [|split].
  - apply dict_keys_set_NoDup; exact Hnd.
  - intros x. rewrite dict_keys_set_In, in_app_iff, Hin. simpl.
    intuition congruence.
  - intros Hnd'. rewrite dict_keys_set.
    assert (Hs : NoDup seen) by (eapply NoDup_app_remove_r; exact Hnd').
    assert (Hk : ~ In k seen).
    { intros Hk. apply NoDup_remove_2 in Hnd'. apply Hnd'.
      rewrite app_nil_r; exact Hk. }
    destruct (dict_mem d k) eqn:E.
    + apply dict_mem_In in E. apply Hin in E. contradiction.
    + rewrite (Heq Hs). reflexivity.
Qed.
End DictFacts.

(* ================================================================== *)
(** * Facts about the loader *)

Section LoaderFacts.
Context `{PyFloat}.

Lemma dict_set_lit_ok {V : Type} (d d' : dict lit V) (k : lit) (v : V) :
  dict_set_lit d k v = Ok d' -> d' = dict_set d k v.
Proof. unfold dict_set_lit. destruct (hashable k); congruence. Qed.

(** ** The services table *)


Lemma _parse_services_row_inv st ln st' :
  services_inv st -> _parse_services_row st ln = Ok st' -> services_inv st'.
Proof.
  destruct st as [[sv c] f]. intros [Hc Hf] Hrow. unfold _parse_services_row in Hrow.
  do 10 inv_bind Hrow.
  repeat match goal with
         | Hd : dict_set_lit _ _ _ = Ok _ |- _ => apply dict_set_lit_ok in Hd
         end.
  inversion Hrow; subst.
  split; apply keys_track_set; assumption.
Qed.

Lemma _parse_services_inv lines st :
  _parse_services lines = Ok st -> services_inv st.
Proof.
  apply (for_lines_invariant _parse_services_row services_inv).
  - intros; eapply _parse_services_row_inv; eauto.
  - split; apply keys_track_nil.
Qed.

(** ** The requests table *)


Lemma _parse_reqs_row_inv st ln st' :
  reqs_inv st -> _parse_reqs_row st ln = Ok st' -> reqs_inv st'.
Proof.
  intros (H1 & H2 & H3 & H4 & H5 & H6 & H7) Hrow. unfold _parse_reqs_row in Hrow.
  do 15 inv_bind Hrow. inversion Hrow; subst; clear Hrow.
  unfold reqs_inv; simpl.
  repeat match goal with |- keys_track _ _ /\ _ => split end;
    apply keys_track_set; assumption.
Qed.

Lemma _parse_reqs_inv lines st :
  _parse_reqs lines = Ok st -> reqs_inv st.
Proof.
  apply (for_lines_invariant _parse_reqs_row reqs_inv).
  - intros; eapply _parse_reqs_row_inv; eauto.
  - unfold reqs_inv; simpl.
    repeat match goal with |- keys_track _ _ /\ _ => split end;
      apply keys_track_nil.
Qed.


(** ** The header *)






(** ** The uniform capacity *)

Lemma capacity_loop_spec header l : forall us us' seen,
  capacity_loop header l us = Ok us' ->
  keys_track (dict_keys us) seen ->
  keys_track (dict_keys us') (seen ++ l).
Proof.
  induction l as [|a r IH]; intros us us' seen Hrun Ht; simpl in Hrun.
  - inversion Hrun; subst. rewrite app_nil_r; exact Ht.
  - do 3 inv_bind Hrun. apply dict_set_lit_ok in Hx1; subst.
    replace (seen ++ a :: r)%list with ((seen ++ [a]) ++ r)%list
      by (rewrite <- app_assoc; reflexivity).
    eapply IH; [exact Hrun|]. apply keys_track_set; exact Ht.
Qed.


(** ** The constructor call and the loop body *)

Lemma make_instance_inv N K F C header arcs sv rq hd ps ein eout inst :
  make_instance N K F C header arcs sv rq hd ps ein eout = Ok inst ->
  services inst = fst (fst sv) /\ cs inst = snd (fst sv) /\ fs inst = snd sv /\
  uniform_capacity header (fst (fst sv)) = Ok (us inst) /\
  bind (header_item header "ServiceCapacity") py_int = Ok (ServiceCapacity inst) /\
  reqs inst = r_reqs rq /\ os inst = r_os rq /\ ds inst = r_ds rq /\
  alphas inst = r_alphas rq /\ betas inst = r_betas rq /\
  is_contract inst = r_is_contract rq /\ rhos inst = r_rhos rq /\
  ws inst = r_ws rq /\
  holding_arcs inst = fst hd /\ chs inst = snd hd /\
  alphaPsis inst = fst ps /\ betaPsis inst = snd ps /\
  arcsEin inst = ein /\ arcsEout inst = eout.
Proof.
  destruct sv as [[sv c] f]. unfold make_instance. intros Hm.
  do 24 inv_bind Hm. inversion Hm; subst; simpl.
  rewrite Hx7; simpl. rewrite Hx8. repeat split; assumption.
Qed.

Lemma load_instance_text_inv N K F C text inst :
  load_instance_text N K F C text = Ok inst ->
  exists header arcs sv rq hd ps ein eout,
    _parse_header (block (_section_blocks text) "HEADER") = Ok header /\
    _parse_services (block (_section_blocks text) "SERVICES") = Ok sv /\
    _parse_reqs (block (_section_blocks text) "REQS") = Ok rq /\
    make_instance N K F C header arcs sv rq hd ps ein eout = Ok inst.
Proof.
  unfold load_instance_text. intros Hl. do 8 inv_bind Hl.
  exists x, x0, x1, x2, x3, x4, x5, x6. repeat split; assumption.
Qed.

End LoaderFacts.

(* ================================================================== *)
(** * Services, requests and the uniform capacity *)

Section InstanceInvariants.
Context `{PyFloat}.

(** C5 (amended).  For every successfully parsed instance, the keys of
    each of cs, fs and us are pairwise distinct and are exactly the arcs
    that occur in the services list; when no arc occurs twice in that
    list, the keys in insertion order are the services list itself (so the
    two multisets agree). *)
Theorem service_keys_follow_services (N K F C : Z) (text : string) (inst : SSNDInstance) :
  load_instance_text N K F C text = Ok inst ->
  keys_track (dict_keys (cs inst)) (services inst) /\
  keys_track (dict_keys (fs inst)) (services inst) /\
  keys_track (dict_keys (us inst)) (services inst).
Proof.
  intros Hl. apply load_instance_text_inv in Hl
    as (header & arcs & sv & rq & hd & ps & ein & eout & Hh & Hs & Hr & Hm).
  apply make_instance_inv in Hm as (-> & -> & -> & Hu & _).
  apply _parse_services_inv in Hs. destruct sv as [[sv c] f]; simpl in *.
  destruct Hs as [Hc Hf]. split; [exact Hc | split; [exact Hf|]].
  unfold uniform_capacity in Hu.
  apply (capacity_loop_spec _ _ _ (seen := [])) in Hu; [exact Hu | apply keys_track_nil].
Qed.

(** C6 (amended).  For every successfully parsed instance, the keys of
    each of os, ds, alphas, betas, is_contract, rhos and ws are pairwise
    distinct and are exactly the ids that occur in the reqs list, so each
    mapping has a value for every id of reqs; when no id occurs twice in
    reqs, the keys in insertion order are the reqs list itself (every key
    then occurs exactly once). *)
Theorem request_keys_follow_reqs (N K F C : Z) (text : string) (inst : SSNDInstance) :
  load_instance_text N K F C text = Ok inst ->
  (keys_track (dict_keys (os inst)) (reqs inst) /\
   keys_track (dict_keys (ds inst)) (reqs inst) /\
   keys_track (dict_keys (alphas inst)) (reqs inst) /\
   keys_track (dict_keys (betas inst)) (reqs inst) /\
   keys_track (dict_keys (is_contract inst)) (reqs inst) /\
   keys_track (dict_keys (rhos inst)) (reqs inst) /\
   keys_track (dict_keys (ws inst)) (reqs inst)) /\
  (forall k, In k (reqs inst) ->
     (exists v, dict_get (os inst) k = Some v) /\
     (exists v, dict_get (ds inst) k = Some v) /\
     (exists v, dict_get (alphas inst) k = Some v) /\
     (exists v, dict_get (betas inst) k = Some v) /\
     (exists v, dict_get (is_contract inst) k = Some v) /\
     (exists v, dict_get (rhos inst) k = Some v) /\
     (exists v, dict_get (ws inst) k = Some v)) /\
  (NoDup (reqs inst) ->
     forall k, In k (dict_keys (os inst)) ->
               count_occ Z.eq_dec (reqs inst) k = 1%nat).
Proof.
  intros Hl. apply load_instance_text_inv in Hl
    as (header & arcs & sv & rq & hd & ps & ein & eout & Hh & Hs & Hr & Hm).
  apply make_instance_inv in Hm
    as (_ & _ & _ & _ & _ & -> & -> & -> & -> & -> & -> & -> & -> & _).
  apply _parse_reqs_inv in Hr.
  destruct Hr as (H1 & H2 & H3 & H4 & H5 & H6 & H7).
  split; [repeat match goal with |- keys_track _ _ /\ _ => split end; assumption|].
  split.
  - intros k Hk.
    repeat match goal with |- (exists v, _) /\ _ => split end;
      apply dict_get_In;
      match goal with
      | Ht : keys_track (dict_keys ?d) _ |- In _ (dict_keys ?d) =>
          apply (proj1 (proj2 Ht)); exact Hk
      end.
  - intros Hnd k Hk. apply (proj1 (proj2 H1)) in Hk.
    apply NoDup_count_occ' with (decA := Z.eq_dec); assumption.
Qed.


End InstanceInvariants.

(* ================================================================== *)
(** * Malformed rows and missing header keys *)

Section Failures.
Context `{PyFloat}.

Lemma py_int_str_raise s e :
  py_int_str s = Raise e -> exists m, e = ValueError m.
Proof. unfold py_int_str. destruct (int_of_string s); intros E; inversion E; eauto. Qed.

Lemma py_float_str_raise s e :
  py_float_str s = Raise e -> exists m, e = ValueError m.
Proof. unfold py_float_str. destruct (float_of_string s); intros E; inversion E; eauto. Qed.



Lemma py_int_raise v e : py_int v = Raise e -> conversion_error e.
Proof.
  destruct v as [[z|xs|xs]|x|s]; simpl; intros E; try (inversion E; subst; exact I).
  - destruct (float_to_Z x); [discriminate|].
    destruct (float_isnan x); inversion E; exact I.
  - apply py_int_str_raise in E as (m & ->); exact I.
Qed.

Lemma py_float_raise v e : py_float v = Raise e -> conversion_error e.
Proof.
  destruct v as [[z|xs|xs]|x|s]; simpl; intros E; try (inversion E; subst; exact I).
  - unfold py_float_int in E. destruct (float_of_Z z); inversion E; exact I.
  - apply py_float_str_raise in E as (m & ->); exact I.
Qed.

Lemma py_items_raise v e : py_items v = Raise e -> conversion_error e.
Proof.
  destruct v as [[z|xs|xs]|x|s]; simpl; intros E; inversion E; exact I.
Qed.

Lemma converts_raise c v e : converts c v = Raise e -> conversion_error e.
Proof.
  destruct c; simpl; intros E.
  - destruct (py_int v) eqn:Ev; [discriminate|]. inversion E; subst. eapply py_int_raise; eauto.
  - destruct (py_float v) eqn:Ev; [discriminate|]. inversion E; subst. eapply py_float_raise; eauto.
  - destruct (py_items v) eqn:Ev; [discriminate|]. inversion E; subst. eapply py_items_raise; eauto.
Qed.

Lemma first_field_error_sound header fields e :
  first_field_error header fields = Some e ->
  match e with
  | KeyError key => In key (map fst fields) /\ dict_get header key = None
  | _ => conversion_error e
  end.
Proof.
  induction fields as [|[key c] r IH]; simpl; [discriminate|].
  destruct (dict_get header key) as [v|] eqn:Ek.
  - destruct (converts c v) as [u|e'] eqn:Ec.
    + intros Hr. specialize (IH Hr). destruct e; try exact IH. destruct IH; auto.
    + intros E; inversion E; subst. apply converts_raise in Ec.
      destruct e; try exact Ec; destruct Ec.
  - intros E; inversion E; subst. auto.
Qed.

Lemma first_field_error_absent header fields key :
  In key (map fst fields) -> dict_get header key = None ->
  exists e, first_field_error header fields = Some e.
Proof.
  induction fields as [|[k c] r IH]; simpl; [tauto|].
  intros [->|Hin] Hnone.
  - rewrite Hnone; eauto.
  - destruct (dict_get header k); [|eauto].
    destruct (converts c h); eauto.
Qed.

(** The constructor call raises what [first_field_error] tells. *)
Lemma make_instance_raises N K F C header arcs sv rq hd ps ein eout e :
  first_field_error header required_fields = Some e ->
  make_instance N K F C header arcs sv rq hd ps ein eout = Raise e.
Proof.
  destruct sv as [[sv c] f]. unfold make_instance, required_fields, first_field_error, header_item, converts.
  repeat match goal with
         | |- context [dict_get header ?key] =>
             destruct (dict_get header key) as [?v|]; cbn [bind];
             [|intros E; inversion E; reflexivity]
         | |- context [py_int ?v] =>
             destruct (py_int v); cbn [bind];
             [|intros E; inversion E; reflexivity]
         | |- context [py_float ?v] =>
             destruct (py_float v); cbn [bind];
             [|intros E; inversion E; reflexivity]
         | |- context [py_items ?v] =>
             destruct (py_items v); cbn [bind];
             [|intros E; inversion E; reflexivity]
         end.
  discriminate.
Qed.

(** C3 (amended).  For every parsed HEADER in which some required key is
    absent, the constructor call raises: the exception is that of the
    first required field, in the order of the call, whose key is absent (a
    KeyError that names the key) or whose value does not convert (a
    TypeError, ValueError or OverflowError). *)
Theorem missing_header_key_raises (N K F C : Z) (header : dict string hval)
    (arcs : lit) (sv : services_state) (rq : reqs_state)
    (hd : list lit * dict lit float) (ps : psis_state) (ein eout : dict lit lit)
    (key : string) :
  In key required_keys ->
  dict_get header key = None ->
  exists e,
    make_instance N K F C header arcs sv rq hd ps ein eout = Raise e /\
    first_field_error header required_fields = Some e /\
    match e with
    | KeyError k => In k required_keys /\ dict_get header k = None
    | _ => conversion_error e
    end.
Proof.
  intros Hin Hnone.
  destruct (first_field_error_absent header required_fields key Hin Hnone) as (e & He).
  exists e. split; [apply make_instance_raises; exact He|].
  split; [exact He|]. apply first_field_error_sound in He. exact He.
Qed.

End Failures.

(* ================================================================== *)
(** * The section splitter *)

Section Splitter.
Context `{PyFloat}.

Lemma isempty_eq s : Str.isempty s = true <-> s = "".
Proof. destruct s; simpl; split; congruence. Qed.

(** The first loop reads the lines in front of the Arcs line, and of
    those the ones that contain a space. *)
Lemma scan_header_pairs lines : forall header,
  fst (scan_header lines header) =
  fold_left (fun h ln => match Str.split_first " " ln with
                         | Some (key, val) => dict_set h key val
                         | None => h
                         end) (header_prefix lines) header.
Proof.
  induction lines as [|ln r IH]; intros header;
    cbn [scan_header header_prefix]; [reflexivity|].
  destruct (Str.startswith "Arcs " ln); [reflexivity|]. cbn [fold_left].
  destruct (Str.isempty ln) eqn:Ee.
  { apply isempty_eq in Ee; subst ln. cbn [Str.split_first]. apply IH. }
  destruct (Str.contains " " ln) eqn:Ec.
  - destruct (Str.split_first " " ln) as [[key val]|]; apply IH.
  - apply split_first_none in Ec. rewrite Ec. apply IH.
Qed.

(** The rest the first loop leaves is a part of the lines. *)
Lemma scan_header_rest lines : forall header x,
  In x (snd (scan_header lines header)) -> In x lines.
Proof.
  induction lines as [|ln r IH]; intros header x; cbn [scan_header snd In]; [tauto|].
  destruct (Str.startswith "Arcs " ln); [cbn [snd In]; tauto|].
  destruct (Str.isempty ln); [intros Hx; right; eapply IH; eauto|].
  destruct (Str.contains " " ln);
    [destruct (Str.split_first " " ln) as [[key val]|]|];
    intros Hx; right; eapply IH; eauto.
Qed.

Lemma skip_blank_incl lines x : In x (skip_blank lines) -> In x lines.
Proof.
  induction lines as [|ln r IH]; simpl; [tauto|].
  destruct (Str.isempty ln); simpl; tauto.
Qed.

Lemma take_table_rest lines x : In x (snd (take_table lines)) -> In x lines.
Proof.
  induction lines as [|ln r IH]; simpl; [tauto|].
  destruct (Str.isempty ln); [simpl; tauto|].
  destruct (take_table r) as [out rest]; simpl in *. tauto.
Qed.

(** A section whose header row is no line of the file is never set. *)
Lemma scan_tables_absent sec tabs : forall lines blocks,
  (forall hrow, In (sec, hrow) tabs -> ~ In hrow lines) ->
  dict_get (scan_tables tabs lines blocks) sec = dict_get blocks sec.
Proof.
  induction tabs as [|[sec' hrow'] more IH]; intros lines blocks Habs; simpl; [reflexivity|].
  assert (Hmore : forall l, (forall x, In x l -> In x lines) ->
                  forall hrow, In (sec, hrow) more -> ~ In hrow l).
  { intros l Hl hrow Hin Hx. apply (Habs hrow); [right; exact Hin | apply Hl; exact Hx]. }
  destruct (skip_blank lines) as [|ln r] eqn:Es.
  - apply IH. apply Hmore. intros x [].
  - assert (Hsub : forall x, In x (ln :: r) -> In x lines).
    { intros x Hx. apply skip_blank_incl. rewrite Es. exact Hx. }
    destruct (String.eqb ln hrow') eqn:Eh.
    + apply String.eqb_eq in Eh; subst hrow'.
      destruct (take_table r) as [tab rest] eqn:Et.
      rewrite IH.
      * apply dict_get_set_other. intros ->.
        apply (Habs ln); [left; reflexivity | apply Hsub; left; reflexivity].
      * apply Hmore. intros x Hx. apply Hsub. right.
        apply take_table_rest. rewrite Et. exact Hx.
    + apply IH. apply Hmore. exact Hsub.
Qed.

(** The tables leave the HEADER section as the first loop made it. *)
Lemma scan_tables_other sec tabs : forall lines blocks,
  ~ In sec (map fst tabs) ->
  dict_get (scan_tables tabs lines blocks) sec = dict_get blocks sec.
Proof.
  intros lines blocks Hsec. apply scan_tables_absent.
  intros hrow Hin. exfalso. apply Hsec. apply (in_map fst) in Hin. exact Hin.
Qed.

Lemma _section_blocks_header text :
  block (_section_blocks text) "HEADER" =
  map (fun kv => fst kv ++ " " ++ snd kv)
      (header_pairs (header_prefix (map _clean (Str.splitlines text)))).
Proof.
  unfold _section_blocks, block, header_pairs.
  rewrite <- scan_header_pairs.
  destruct (scan_header (map _clean (Str.splitlines text)) []) as [header rest]; simpl fst.
  destruct rest as [|ln r].
  - rewrite scan_tables_other; [reflexivity|]. simpl; intuition discriminate.
  - destruct (Str.startswith "Arcs " ln).
    + rewrite scan_tables_other; [reflexivity|]. simpl; intuition discriminate.
    + rewrite scan_tables_other; [reflexivity|]. simpl; intuition discriminate.
Qed.


Lemma dict_set_In_inv (d : dict string string) k v k' v' :
  In (k, v) (dict_set d k' v') -> In (k, v) d \/ (k, v) = (k', v').
Proof.
  induction d as [|[k0 v0] r IH]; simpl.
  - intros [E|[]]; right; congruence.
  - destruct (key_eqb k0 k') eqn:E; simpl.
    + apply (key_eqb_eq k0 k') in E; subst k0.
      intros [E'|Hin]; [right; congruence | left; right; exact Hin].
    + intros [E'|Hin]; [left; left; exact E'|].
      destruct (IH Hin) as [Hd|Hd]; [left; right; exact Hd | right; exact Hd].
Qed.

Let assign (h : dict string string) (ln : string) : dict string string :=
  match Str.split_first " " ln with
  | Some (key, val) => dict_set h key val
  | None => h
  end.

Lemma fold_assign_keys lines : forall h key,
  In key (dict_keys h) \/
  (exists ln val, In ln lines /\ Str.split_first " " ln = Some (key, val)) ->
  In key (dict_keys (fold_left assign lines h)).
Proof.
  induction lines as [|l r IH]; intros h key; simpl.
  - intros [Hk|(ln & val & [] & _)]; exact Hk.
  - intros Hk. apply IH.
    destruct Hk as [Hk|(ln & val & [->|Hin] & Hs)].
    + left. unfold assign. destruct (Str.split_first " " l) as [[k v]|]; [|exact Hk].
      apply dict_keys_set_In; left; exact Hk.
    + left. unfold assign. rewrite Hs. apply dict_keys_set_In; right; reflexivity.
    + right; eauto.
Qed.

Lemma fold_assign_from lines : forall h key val,
  In (key, val) (fold_left assign lines h) ->
  In (key, val) h \/
  exists ln, In ln lines /\ Str.split_first " " ln = Some (key, val).
Proof.
  induction lines as [|l r IH]; intros h key val; simpl; [tauto|].
  intros Hin. destruct (IH _ _ _ Hin) as [Hh|(ln & Hln & Hs)].
  - unfold assign in Hh. destruct (Str.split_first " " l) as [[k v]|] eqn:El; [|tauto].
    apply dict_set_In_inv in Hh as [Hh|Hh]; [tauto|].
    right. exists l. split; [left; reflexivity | congruence].
  - right. exists ln. split; [right; exact Hln | exact Hs].
Qed.

Lemma dict_get_Some_In (d : dict string string) key val :
  dict_get d key = Some val -> In (key, val) d.
Proof.
  induction d as [|[k v] r IH]; simpl; [discriminate|].
  destruct (key_eqb k key) eqn:E.
  - apply (key_eqb_eq k key) in E; subst k. intros Hv; inversion Hv; auto.
  - intros Hv; right; apply IH; exact Hv.
Qed.

Lemma fold_assign_get lines : forall h key val,
  dict_get h key = Some val ->
  (forall l v, In l lines -> Str.split_first " " l <> Some (key, v)) ->
  dict_get (fold_left assign lines h) key = Some val.
Proof.
  induction lines as [|l r IH]; intros h key val Hget Hlater; simpl; [exact Hget|].
  apply IH; [|intros l' v Hin; apply Hlater; right; exact Hin].
  unfold assign. destruct (Str.split_first " " l) as [[k v]|] eqn:El; [|exact Hget].
  rewrite dict_get_set_other; [exact Hget|].
  intros ->. apply (Hlater l v); [left; reflexivity | exact El].
Qed.

(** C4 (amended).  The HEADER section holds the key-value pairs of the
    lines in front of the first line that starts with "Arcs ": a line that
    contains a space is split on its first space and assigns its value to
    its key, and the last line with a key gives the value of its entry;
    a line without a space contributes nothing, and neither does a blank
    line; no line from the "Arcs " line on is read. *)
Theorem header_section_of_prefix (text : string) :
  let lines := map _clean (Str.splitlines text) in
  let HEADER := block (_section_blocks text) "HEADER" in
  HEADER = map (fun kv => fst kv ++ " " ++ snd kv)
               (header_pairs (header_prefix lines)) /\
  (forall ln key val,
      In ln (header_prefix lines) ->
      Str.split_first " " ln = Some (key, val) ->
      exists val', In (key ++ " " ++ val') HEADER) /\
  (forall entry,
      In entry HEADER ->
      exists ln key val,
        In ln (header_prefix lines) /\
        Str.split_first " " ln = Some (key, val) /\
        entry = key ++ " " ++ val) /\
  (forall pre ln post key val,
      header_prefix lines = (pre ++ ln :: post)%list ->
      Str.split_first " " ln = Some (key, val) ->
      (forall l v, In l post -> Str.split_first " " l <> Some (key, v)) ->
      In (key ++ " " ++ val) HEADER).
Proof.
  intros lines HEADER.
  assert (Heq : HEADER = map (fun kv => fst kv ++ " " ++ snd kv)
                             (header_pairs (header_prefix lines))).
  { apply _section_blocks_header. }
  split; [exact Heq|]. rewrite Heq. unfold header_pairs. fold assign.
  split; [|split].
  - intros ln key val Hin Hs.
    assert (Hk : In key (dict_keys (fold_left assign (header_prefix lines) []))).
    { apply fold_assign_keys. right; eauto. }
    unfold dict_keys in Hk. apply in_map_iff in Hk as ([k v] & Hfst & Hkv).
    simpl in Hfst; subst k. exists v.
    apply in_map_iff. exists (key, v). split; [reflexivity | exact Hkv].
  - intros entry Hentry. apply in_map_iff in Hentry as ([k v] & <- & Hkv).
    apply fold_assign_from in Hkv as [[]|(ln & Hln & Hs)].
    exists ln, k, v. repeat split; assumption.
  - intros pre ln post key val Hsplit Hs Hlater.
    apply in_map_iff. exists (key, val). split; [reflexivity|].
    apply dict_get_Some_In. rewrite Hsplit, fold_left_app. simpl.
    apply fold_assign_get; [|exact Hlater].
    unfold assign at 1. rewrite Hs. apply dict_get_set_same.
Qed.


End Splitter.

(* ================================================================== *)
(** * Scenario draws *)


(* ================================================================== *)
(** * The instance file-name pattern *)

















Lemma split_aux_nonempty c s cur : Str.split_aux c s cur <> [].
Proof.
  revert cur; induction s as [|d s IH]; intros cur; simpl; [discriminate|].
  destruct (Ascii.eqb d c); [discriminate | apply IH].
Qed.

















(* ================================================================== *)
(** * Worked examples *)

Section Worked.
#[local] Existing Instance DecFloat.dec_float.

(** C1 (as worded): the HEADER of the example has no ServiceCost line, so
    the constructor call stops at [header["ServiceCost"]]. *)
Lemma example_without_service_cost :
  load_instance_text 3 1 1 50 Sample.text = Raise (KeyError "ServiceCost").
Proof. reflexivity. Qed.

(** C1 (amended).  The file of the example with a ServiceCost line added
    to its HEADER is parsed to an instance with services = [((1,0),(2,1))],
    cs of that arc = 2.0, fs of that arc = 5.0, us of that arc = 50.0,
    reqs = [1] and is_contract[1] = True, whatever the four numbers of the
    file name. *)
Theorem example_with_service_cost (N K F C : Z) :
  load_instance_text N K F C Sample.text_with_cost = Ok Sample.instance /\
  services Sample.instance = [Sample.arc] /\
  dict_get (cs Sample.instance) Sample.arc = float_of_string "2.0" /\
  dict_get (fs Sample.instance) Sample.arc = float_of_string "5.0" /\
  dict_get (us Sample.instance) Sample.arc = float_of_Z 50 /\
  reqs Sample.instance = [1] /\
  dict_get (is_contract Sample.instance) 1 = Some true.
Proof. repeat split; reflexivity. Qed.



(** C3 (as worded): the header parsed from NodeSize 3, TimePeriods 5 has
    no RequestSize (among others), and the constructor call raises the
    TypeError of [list(5)] before it reads a missing key. *)
Lemma short_header_type_error :
  exists header,
    _parse_header (block (_section_blocks Sample.short_header_text) "HEADER") = Ok header /\
    In "RequestSize" required_keys /\
    dict_get header "RequestSize" = None /\
    load_instance_text 3 1 1 50 Sample.short_header_text =
      Raise (TypeError "'int' object is not iterable").
Proof.
  eexists. split; [reflexivity|].
  split; [simpl; tauto|]. split; reflexivity.
Qed.

Lemma missing_header_key_raises_witness :
  let header := [("NodeSize", HLit (LInt 3)); ("TimePeriods", HLit (LInt 5))] in
  In "RequestSize" required_keys /\
  dict_get header "RequestSize" = None /\
  exists e,
    make_instance 3 1 1 50 header (LList []) ([], [], [])
      {| r_reqs := []; r_os := []; r_ds := []; r_alphas := []; r_betas := [];
         r_is_contract := []; r_rhos := []; r_ws := [] |}
      ([], []) ([], []) [] [] = Raise e /\
    first_field_error header required_fields = Some e /\
    match e with
    | KeyError k => In k required_keys /\ dict_get header k = None
    | _ => conversion_error e
    end.
Proof.
  assert (Hin : In "RequestSize" required_keys) by (simpl; tauto).
  split; [exact Hin|]. split; [reflexivity|].
  apply missing_header_key_raises with (key := "RequestSize");
    [exact Hin | reflexivity].
Defined.

(** C4 (as worded): the line Foo stands in front of the Arcs line and is
    not blank, and the HEADER section has no entry. *)
Lemma bare_word_contributes_nothing :
  map _clean (Str.splitlines Sample.text_with_bare_word) = ["Foo"; "Arcs []"] /\
  block (_section_blocks Sample.text_with_bare_word) "HEADER" = [].
Proof. split; reflexivity. Qed.

(** C5 (as worded): two SERVICES rows for one arc give a services list
    with the arc twice and mappings with the arc once. *)
Lemma same_arc_twice_differs :
  exists inst,
    load_instance_text 3 1 1 50 Sample.text_same_arc_twice = Ok inst /\
    services inst = [Sample.arc; Sample.arc] /\
    dict_keys (cs inst) = [Sample.arc] /\
    dict_keys (fs inst) = [Sample.arc] /\
    dict_keys (us inst) = [Sample.arc] /\
    ~ Permutation (dict_keys (cs inst)) (services inst).
Proof.
  eexists. split; [reflexivity|].
  repeat (split; [reflexivity|]).
  intros Hp. apply Permutation_length in Hp. discriminate Hp.
Qed.

Lemma service_keys_follow_services_witness :
  load_instance_text 3 1 1 50 Sample.text_with_cost = Ok Sample.instance /\
  (keys_track (dict_keys (cs Sample.instance)) (services Sample.instance) /\
   keys_track (dict_keys (fs Sample.instance)) (services Sample.instance) /\
   keys_track (dict_keys (us Sample.instance)) (services Sample.instance)).
Proof.
  split; [reflexivity|].
  apply (service_keys_follow_services 3 1 1 50 Sample.text_with_cost).
  reflexivity.
Defined.

(** C6 (as worded): two REQS rows for the id 1 give a reqs list with the
    id twice, although it is a key of the mappings. *)
Lemma same_req_twice_differs :
  exists inst,
    load_instance_text 3 1 1 50 Sample.text_same_req_twice = Ok inst /\
    reqs inst = [1; 1] /\
    dict_keys (os inst) = [1] /\
    count_occ Z.eq_dec (reqs inst) 1 = 2%nat.
Proof.
  eexists. split; [reflexivity|].
  repeat split; reflexivity.
Qed.

Lemma request_keys_follow_reqs_witness :
  load_instance_text 3 1 1 50 Sample.text_with_cost = Ok Sample.instance /\
  keys_track (dict_keys (os Sample.instance)) (reqs Sample.instance) /\
  (exists v, dict_get (ws Sample.instance) 1 = Some v).
Proof.
  split; [reflexivity|].
  pose proof (request_keys_follow_reqs 3 1 1 50 Sample.text_with_cost
                (inst := Sample.instance)) as Hreq.
  destruct Hreq as ((Hos & _) & Htotal & _); [reflexivity|].
  split; [exact Hos|].
  apply (Htotal 1). left; reflexivity.
Defined.



End Worked.



(* ================================================================== *)
(** * Further properties of the section splitter *)

Lemma rev_acc_append (a b acc : string) :
  Str.rev_acc (a ++ b) acc = Str.rev_acc b (Str.rev_acc a acc).
Proof. revert acc; induction a as [|c a IH]; intros acc; simpl; auto. Qed.

Lemma str_rev_app (a b : string) : Str.rev (a ++ b) = Str.rev b ++ Str.rev a.
Proof.
  unfold Str.rev. rewrite rev_acc_append.
  change (Str.rev_acc a "") with ("" ++ Str.rev_acc a "") at 1.
  apply rev_acc_app.
Qed.

Lemma lstrip_first s c :
  first_char (Str.lstrip s) = Some c -> Str.isspace c = false.
Proof.
  induction s as [|d s IH]; simpl; [discriminate|].
  destruct (Str.isspace d) eqn:Ed; [exact IH|].
  simpl. intros E; inversion E; subst; exact Ed.
Qed.

Lemma lstrip_suffix s : exists p, s = p ++ Str.lstrip s.
Proof.
  induction s as [|d s [p IH]]; simpl.
  - exists "". reflexivity.
  - destruct (Str.isspace d).
    + exists (String d p). simpl. f_equal. exact IH.
    + exists "". reflexivity.
Qed.

Lemma first_char_app_r a b c :
  first_char b = Some c -> a = "" \/ first_char (a ++ b) = first_char a.
Proof. destruct a; simpl; auto. Qed.

(** [strip] leaves no white space at the ends. *)
Lemma strip_trimmed s : trimmed (Str.strip s).
Proof.
  unfold trimmed, last_char, Str.strip, Str.rstrip. split.
  - intros c Hc.
    (* the first character of the result is the last of the reversed
       stripped text, which is a character of [lstrip s] *)
    destruct (lstrip_suffix (Str.rev (Str.lstrip s))) as [p Hp].
    assert (Hrev : Str.lstrip s =
                   Str.rev (Str.lstrip (Str.rev (Str.lstrip s))) ++ Str.rev p).
    { rewrite <- str_rev_app, <- Hp, str_rev_involutive. reflexivity. }
    destruct (Str.rev (Str.lstrip (Str.rev (Str.lstrip s)))) as [|x t] eqn:Ex;
      [discriminate Hc|].
    simpl in Hc. inversion Hc; subst x.
    apply (lstrip_first s). rewrite Hrev. reflexivity.
  - intros c. rewrite str_rev_involutive. apply lstrip_first.
Qed.

Lemma remove_app c a b : Str.remove c (a ++ b) = Str.remove c a ++ Str.remove c b.
Proof.
  induction a as [|d a IH]; simpl; [reflexivity|].
  destruct (Ascii.eqb d c); simpl; rewrite IH; reflexivity.
Qed.

Lemma str_rev_remove c s : Str.rev (Str.remove c s) = Str.remove c (Str.rev s).
Proof.
  induction s as [|d s IH]; [reflexivity|].
  change (String d s) with (String d "" ++ s).
  rewrite str_rev_app, !remove_app, str_rev_app, IH. f_equal.
  simpl. destruct (Ascii.eqb d c); reflexivity.
Qed.

Lemma remove_first c s x :
  first_char s = Some x -> Ascii.eqb x c = false ->
  first_char (Str.remove c s) = Some x.
Proof.
  destruct s as [|d s]; simpl; [discriminate|].
  intros E Hx; inversion E; subst. rewrite Hx. reflexivity.
Qed.

Lemma remove_first_inv c s x :
  (forall y, first_char s = Some y -> Ascii.eqb y c = false) ->
  first_char (Str.remove c s) = Some x -> first_char s = Some x.
Proof.
  destruct s as [|d s]; simpl; [discriminate|].
  intros Hy. rewrite (Hy d eq_refl). simpl. auto.
Qed.

Lemma space_not_CR_free x : Str.isspace x = false -> Ascii.eqb x Str.CR = false.
Proof.
  intros Hx. destruct (Ascii.eqb x Str.CR) eqn:E; [|reflexivity].
  apply Ascii.eqb_eq in E; subst x. discriminate Hx.
Qed.

Lemma clean_trimmed_aux (s : string) : trimmed (_clean s).
Proof.
  unfold _clean. destruct (strip_trimmed s) as [Hf Hl]. split.
  - intros c Hc. apply Hf. apply (remove_first_inv Str.CR); [|exact Hc].
    intros y Hy. apply space_not_CR_free, Hf, Hy.
  - intros c Hc. unfold last_char in *. rewrite str_rev_remove in Hc.
    apply Hl. apply (remove_first_inv Str.CR); [|exact Hc].
    intros y Hy. apply space_not_CR_free, Hl, Hy.
Qed.

Lemma remove_contains c s : Str.contains c (Str.remove c s) = false.
Proof.
  induction s as [|d t IH]; simpl; [reflexivity|].
  destruct (Ascii.eqb d c) eqn:Ed; [exact IH|].
  simpl. rewrite Ed. exact IH.
Qed.

Lemma lstrip_id s :
  (forall c, first_char s = Some c -> Str.isspace c = false) -> Str.lstrip s = s.
Proof.
  destruct s as [|d s]; simpl; [reflexivity|].
  intros Hc. rewrite (Hc d eq_refl). reflexivity.
Qed.

Lemma remove_id c s : Str.contains c s = false -> Str.remove c s = s.
Proof.
  induction s as [|d s IH]; simpl; [reflexivity|].
  intros Hc. apply orb_false_iff in Hc as [Hd Hs]. rewrite Hd, (IH Hs). reflexivity.
Qed.

Lemma clean_fixpoint s :
  trimmed s -> Str.contains Str.CR s = false -> _clean s = s.
Proof.
  intros [Hf Hl] Hcr. unfold _clean, Str.strip, Str.rstrip.
  rewrite (lstrip_id s Hf), (lstrip_id (Str.rev s) Hl), str_rev_involutive.
  apply remove_id; exact Hcr.
Qed.

(** X1.  [_clean] returns a text without carriage returns and without
    white space at its ends (so a tab at the end of a line is gone), and
    cleaning a cleaned text changes nothing. *)
Theorem clean_is_trimmed (s : string) :
  trimmed (_clean s) /\ Str.contains Str.CR (_clean s) = false /\
  _clean (_clean s) = _clean s.
Proof.
  split; [apply clean_trimmed_aux|]. split; [apply remove_contains|].
  apply clean_fixpoint; [apply clean_trimmed_aux | apply remove_contains].
Qed.

(** X2.  [take_table] cuts the lines at the first blank one: the rows it
    takes are not blank, the rows and the rest make up the lines again,
    and the rest is empty or starts with the blank line. *)
Theorem take_table_cuts_at_blank (lines : list string) :
  (lines = fst (take_table lines) ++ snd (take_table lines))%list /\
  Forall (fun ln => ln <> "") (fst (take_table lines)) /\
  (snd (take_table lines) = [] \/ exists r, snd (take_table lines) = "" :: r).
Proof.
  induction lines as [|ln r (IH1 & IH2 & IH3)]; simpl.
  - repeat split; [constructor | left; reflexivity].
  - destruct ln as [|c ln]; simpl.
    + repeat split; [constructor | right; eauto].
    + destruct (take_table r) as [out rest]; simpl in *.
      repeat split; [congruence | constructor; [discriminate | exact IH2] | exact IH3].
Qed.

Lemma skip_blank_head lines ln r :
  skip_blank lines = ln :: r -> skip_blank (ln :: r) = ln :: r.
Proof.
  induction lines as [|l rest IH]; simpl; [discriminate|].
  destruct (Str.isempty l) eqn:El; [exact IH|].
  intros E; inversion E; subst. simpl. rewrite El. reflexivity.
Qed.

(** The scan of the tables does not pass a line it does not know. *)
Lemma scan_tables_stuck (tabs : list (string * string))
    (lines : list string) (blocks : dict string (list string))
    (ln : string) (r : list string) :
  skip_blank lines = ln :: r ->
  (forall sec hrow, In (sec, hrow) tabs -> ln <> hrow) ->
  scan_tables tabs lines blocks = blocks.
Proof.
  revert lines. induction tabs as [|[sec hrow] more IH]; intros lines Hs Hno;
    simpl; [reflexivity|].
  rewrite Hs.
  destruct (String.eqb ln hrow) eqn:E.
  - apply String.eqb_eq in E. exfalso. apply (Hno sec hrow); [left; reflexivity | exact E].
  - apply IH; [eapply skip_blank_head; exact Hs|].
    intros s h Hin. apply (Hno s h). right; exact Hin.
Qed.

Lemma scan_header_rest_eq lines : forall header,
  snd (scan_header lines header) = skipn (length (header_prefix lines)) lines.
Proof.
  induction lines as [|ln r IH]; intros header; cbn [scan_header header_prefix];
    [reflexivity|].
  destruct (Str.startswith "Arcs " ln); [reflexivity|].
  cbn [length skipn].
  destruct (Str.isempty ln); [apply IH|].
  destruct (Str.contains " " ln);
    [destruct (Str.split_first " " ln) as [[key val]|]|]; apply IH.
Qed.

Lemma header_prefix_rest lines ln r :
  skipn (length (header_prefix lines)) lines = ln :: r ->
  Str.startswith "Arcs " ln = true.
Proof.
  induction lines as [|l rest IH]; cbn [header_prefix]; [discriminate|].
  destruct (Str.startswith "Arcs " l) eqn:E.
  - simpl. intros Hl; inversion Hl; subst; exact E.
  - cbn [length skipn]. exact IH.
Qed.

(** X4.  The HEADER section is always there, and the ARCS section is the
    first line that starts with "Arcs ", without that prefix; a file
    without such a line has no ARCS section. *)
Theorem arcs_section_is_first_arcs_line (text : string) :
  let lines := map _clean (Str.splitlines text) in
  dict_mem (_section_blocks text) "HEADER" = true /\
  dict_get (_section_blocks text) "ARCS" =
    match skipn (length (header_prefix lines)) lines with
    | ln :: _ => Some [Str.drop 5 ln]
    | [] => None
    end.
Proof.
  intros lines. unfold dict_mem, _section_blocks. fold lines.
  pose proof (scan_header_rest_eq lines []) as Hrest.
  destruct (scan_header lines []) as [header rest]. simpl in Hrest. subst rest.
  destruct (skipn (length (header_prefix lines)) lines) as [|ln r] eqn:Es.
  - rewrite !scan_tables_other by (simpl; intuition discriminate).
    split; reflexivity.
  - rewrite (header_prefix_rest _ Es).
    rewrite !scan_tables_other by (simpl; intuition discriminate).
    split; reflexivity.
Qed.

Lemma header_prefix_all lines :
  (forall ln, In ln lines -> Str.startswith "Arcs " ln = false) ->
  header_prefix lines = lines.
Proof.
  induction lines as [|l r IH]; intros Hno; cbn [header_prefix]; [reflexivity|].
  rewrite (Hno l (or_introl eq_refl)). f_equal. apply IH.
  intros ln Hin; apply Hno; right; exact Hin.
Qed.

Lemma scan_tables_nil tabs blocks : scan_tables tabs [] blocks = blocks.
Proof. induction tabs as [|[sec hrow] more IH]; simpl; auto. Qed.

(** X3.  The tables are read only as far as the file follows the
    expected layout: when the first line after the Arcs line that is not
    blank is the header row of none of the six tables (a comment, a table
    of another kind), the file has the HEADER and ARCS sections and no
    other, whatever follows. *)
Theorem tables_stop_at_unknown_line (text : string) (a ln : string)
    (rest r : list string) :
  let lines := map _clean (Str.splitlines text) in
  skipn (length (header_prefix lines)) lines = a :: rest ->
  skip_blank rest = ln :: r ->
  (forall sec hrow, In (sec, hrow) tables -> ln <> hrow) ->
  _section_blocks text =
    [ ("HEADER", map (fun kv => fst kv ++ " " ++ snd kv)
                     (header_pairs (header_prefix lines)));
      ("ARCS", [Str.drop 5 a]) ].
Proof.
  intros lines Ha Hs Hno. unfold _section_blocks. fold lines.
  pose proof (scan_header_rest_eq lines []) as Hrest.
  pose proof (scan_header_pairs lines []) as Hpairs.
  destruct (scan_header lines []) as [header rest']. simpl in Hrest, Hpairs.
  subst rest'. rewrite Ha, (header_prefix_rest _ Ha).
  rewrite (scan_tables_stuck tables _ _ Hs Hno).
  unfold header_pairs. rewrite <- Hpairs. reflexivity.
Qed.

(** X5.  A file without a line that starts with "Arcs " is read as a
    header from its first line to its last: every line with a space
    becomes a HEADER entry, table rows included, and there is no other
    section. *)
Theorem file_without_arcs_is_all_header (text : string) :
  let lines := map _clean (Str.splitlines text) in
  (forall ln, In ln lines -> Str.startswith "Arcs " ln = false) ->
  _section_blocks text =
    [ ("HEADER", map (fun kv => fst kv ++ " " ++ snd kv) (header_pairs lines)) ].
Proof.
  intros lines Hno. unfold _section_blocks. fold lines.
  pose proof (scan_header_rest_eq lines []) as Hrest.
  pose proof (scan_header_pairs lines []) as Hpairs.
  destruct (scan_header lines []) as [header rest']. simpl in Hrest, Hpairs.
  subst rest'. rewrite (header_prefix_all _ Hno) in *.
  rewrite skipn_all. rewrite scan_tables_nil.
  unfold header_pairs. rewrite <- Hpairs. reflexivity.
Qed.

Lemma take_table_rows lines :
  Forall (fun l => In l lines /\ l <> "") (fst (take_table lines)).
Proof.
  induction lines as [|ln r IH]; simpl; [constructor|].
  destruct ln as [|c ln]; simpl; [constructor|].
  destruct (take_table r) as [out rest]; simpl in *.
  constructor; [split; [left; reflexivity | discriminate]|].
  eapply Forall_impl; [|exact IH]. simpl. intros l [Hin Hne]; auto.
Qed.

(** The rows of a section that the scan of the tables sets are lines of
    the file that are not blank. *)
Lemma scan_tables_rows tabs : forall lines blocks sec rows,
  dict_get (scan_tables tabs lines blocks) sec = Some rows ->
  dict_get blocks sec = Some rows \/
  Forall (fun l => In l lines /\ l <> "") rows.
Proof.
  induction tabs as [|[sec' hrow] more IH]; intros lines blocks sec rows Hget;
    simpl in Hget; [left; exact Hget|].
  assert (Hmono : forall l (rs : list string),
             (forall x, In x l -> In x lines) ->
             Forall (fun x => In x l /\ x <> "") rs ->
             Forall (fun x => In x lines /\ x <> "") rs).
  { intros l rs Hl Hrs. eapply Forall_impl; [|exact Hrs].
    simpl. intros x [Hx Hne]; auto. }
  destruct (skip_blank lines) as [|ln r] eqn:Es.
  - apply IH in Hget as [Hget|Hget]; [left; exact Hget | right].
    apply (Hmono [] rows); [intros x []|exact Hget].
  - assert (Hsub : forall x, In x (ln :: r) -> In x lines).
    { intros x Hx. apply skip_blank_incl. rewrite Es. exact Hx. }
    destruct (String.eqb ln hrow).
    + pose proof (take_table_rows r) as Hrows.
      pose proof (take_table_rest r) as Hrest.
      destruct (take_table r) as [tab rest]; simpl in Hrows, Hrest.
      apply IH in Hget as [Hget|Hget].
      * destruct (String.eqb sec' sec) eqn:E.
        -- apply String.eqb_eq in E; subst sec'.
           rewrite dict_get_set_same in Hget. inversion Hget; subst rows.
           right. apply (Hmono r tab); [intros x Hx; apply Hsub; right; exact Hx | exact Hrows].
        -- apply String.eqb_neq in E.
           rewrite dict_get_set_other in Hget by exact E. left; exact Hget.
      * right. apply (Hmono rest rows); [|exact Hget].
        intros x Hx. apply Hsub. right. apply Hrest. exact Hx.
    + apply IH in Hget as [Hget|Hget]; [left; exact Hget | right].
      apply (Hmono (ln :: r) rows); [exact Hsub | exact Hget].
Qed.

(** The rows of a table section are cleaned lines of the file, none
    blank. *)
Lemma table_rows_are_clean_lines text sec row :
  In sec table_names ->
  In row (block (_section_blocks text) sec) ->
  row <> "" /\ exists l, In l (Str.splitlines text) /\ row = _clean l.
Proof.
  intros Hsec Hrow. unfold block in Hrow.
  destruct (dict_get (_section_blocks text) sec) as [rows|] eqn:Hget; [|destruct Hrow].
  unfold _section_blocks in Hget.
  destruct (scan_header (map _clean (Str.splitlines text)) []) as [header rest] eqn:Eh.
  assert (Hrest : forall x, In x rest -> In x (map _clean (Str.splitlines text))).
  { intros x Hx. apply (scan_header_rest _ []). rewrite Eh. exact Hx. }
  assert (Hne : sec <> "HEADER" /\ sec <> "ARCS").
  { unfold table_names in Hsec. simpl in Hsec.
    repeat (destruct Hsec as [<-|Hsec]; [split; discriminate|]). destruct Hsec. }
  destruct Hne as [Hn1 Hn2].
  assert (Hall : Forall (fun l => In l rest /\ l <> "") rows).
  { destruct rest as [|ln r].
    - apply scan_tables_rows in Hget as [Hget|Hget]; [|exact Hget].
      rewrite dict_get_set_other in Hget by congruence. discriminate Hget.
    - destruct (Str.startswith "Arcs " ln).
      + apply scan_tables_rows in Hget as [Hget|Hget].
        * rewrite !dict_get_set_other in Hget by congruence. discriminate Hget.
        * eapply Forall_impl; [|exact Hget]. simpl. intros x [Hx Hxe]; auto.
      + apply scan_tables_rows in Hget as [Hget|Hget]; [|exact Hget].
        rewrite dict_get_set_other in Hget by congruence. discriminate Hget. }
  rewrite Forall_forall in Hall. destruct (Hall row Hrow) as [Hin Hnb].
  split; [exact Hnb|]. apply Hrest in Hin. apply in_map_iff in Hin as (l & <- & Hl).
  eauto.
Qed.

Lemma join_split_aux c s : forall cur,
  Str.join c (Str.split_aux c s cur) = Str.rev cur ++ s.
Proof.
  induction s as [|d s IH]; intros cur; simpl.
  - rewrite append_empty_r. reflexivity.
  - destruct (Ascii.eqb d c) eqn:E.
    + apply Ascii.eqb_eq in E; subst d.
      destruct (Str.split_aux c s "") as [|y ys] eqn:Ey;
        [exfalso; eapply split_aux_nonempty; exact Ey|].
      change (Str.join c (Str.rev cur :: y :: ys))
        with (Str.rev cur ++ String c (Str.join c (y :: ys))).
      rewrite <- Ey, IH. reflexivity.
    + rewrite IH. change (String d cur) with (Str.rev_acc (String d "") cur).
      rewrite rev_rev_acc, append_assoc. reflexivity.
Qed.

(** [sep.join(s.split(sep))] is [s]. *)
Lemma join_split c s : Str.join c (Str.split c s) = s.
Proof. unfold Str.split. rewrite join_split_aux. reflexivity. Qed.

Lemma join_snoc_empty c (xs : list string) :
  xs <> [] -> Str.join c (xs ++ [""]) = Str.join c xs ++ String c "".
Proof.
  induction xs as [|x r IH]; intros Hne; [congruence|].
  destruct r as [|y r'].
  - reflexivity.
  - change (Str.join c ((x :: y :: r') ++ [""]))
      with (x ++ String c (Str.join c ((y :: r') ++ [""]))).
    rewrite IH by discriminate.
    change (Str.join c (x :: y :: r')) with (x ++ String c (Str.join c (y :: r'))).
    rewrite append_assoc. reflexivity.
Qed.

(** X6.  No row of a table section starts or ends with an empty field:
    the rows are stripped lines, so a tab at either end is gone before the
    row is split.  In particular an EIN or EOUT row never reaches its
    parser with an empty list field, the one case its [else []] is for. *)
Theorem table_rows_have_no_empty_end_field (text : string) (sec row : string) :
  In sec table_names ->
  In row (block (_section_blocks text) sec) ->
  hd "" (Str.split Str.TAB row) <> "" /\
  last (Str.split Str.TAB row) "" <> "".
Proof.
  intros Hsec Hrow.
  destruct (@table_rows_are_clean_lines text sec row Hsec Hrow) as (Hne & l & _ & Hl).
  destruct (clean_trimmed_aux l) as [Hf Hla]. rewrite <- Hl in Hf, Hla.
  pose proof (join_split Str.TAB row) as Hj.
  split.
  - intros Hhd. destruct (Str.split Str.TAB row) as [|x [|y ys]] eqn:Es; simpl in Hhd.
    + simpl in Hj. congruence.
    + subst x. simpl in Hj. congruence.
    + subst x. rewrite <- Hj in Hf. specialize (Hf Str.TAB eq_refl). discriminate Hf.
  - intros Hlast.
    destruct (@exists_last _ (Str.split Str.TAB row)) as (fs & z & Efs);
      [apply split_aux_nonempty|].
    rewrite Efs in Hlast, Hj. rewrite last_last in Hlast. subst z.
    destruct fs as [|x fs'].
    + simpl in Hj. congruence.
    + rewrite join_snoc_empty in Hj by discriminate.
      unfold last_char in Hla. rewrite <- Hj, str_rev_app in Hla.
      specialize (Hla Str.TAB eq_refl). discriminate Hla.
Qed.

Lemma split_first_sound c s k v :
  Str.split_first c s = Some (k, v) ->
  s = k ++ String c v /\ Str.contains c k = false.
Proof.
  revert k v; induction s as [|d s IH]; intros k v; simpl; [discriminate|].
  destruct (Ascii.eqb d c) eqn:E.
  - apply Ascii.eqb_eq in E; subst d. intros Hs; inversion Hs; subst. auto.
  - destruct (Str.split_first c s) as [[k' v']|]; [|discriminate].
    intros Hs; inversion Hs; subst. destruct (IH k' v eq_refl) as [-> Hk].
    simpl. rewrite E. auto.
Qed.

Lemma split_first_join c k v :
  Str.contains c k = false -> Str.split_first c (k ++ String c v) = Some (k, v).
Proof.
  induction k as [|d k IH]; simpl; intros Hk.
  - rewrite Ascii.eqb_refl. reflexivity.
  - apply orb_false_iff in Hk as [Hd Hk]. rewrite Hd, (IH Hk). reflexivity.
Qed.

(** X7.  The HEADER section is written as "key value" lines and read
    again by [_parse_header] with a split on the first space: every entry
    splits back into the key and the value it was made from (no key holds
    a space), so that split never fails on the output of the splitter. *)
Theorem header_entries_split_back (text : string) :
  map (Str.split_first " ") (block (_section_blocks text) "HEADER") =
  map Some (header_pairs (header_prefix (map _clean (Str.splitlines text)))).
Proof.
  rewrite _section_blocks_header, map_map.
  apply map_ext_in. intros [k v] Hin. simpl.
  unfold header_pairs in Hin.
  apply fold_assign_from in Hin as [[]|(ln & _ & Hs)].
  apply split_first_sound in Hs as [_ Hk].
  apply split_first_join. exact Hk.
Qed.

(* ================================================================== *)
(** * Further properties of the header and the constructor call *)

Section HeaderFacts.
Context `{PyFloat}.

Lemma header_typed_set header key v :
  header_typed header -> header_entry_typed key v ->
  header_typed (dict_set header key v).
Proof.
  intros Hh Hv k w Hw. destruct (String.eqb key k) eqn:E.
  - apply String.eqb_eq in E; subst k. rewrite dict_get_set_same in Hw.
    inversion Hw; subst; exact Hv.
  - apply String.eqb_neq in E. rewrite dict_get_set_other in Hw by exact E.
    exact (Hh k w Hw).
Qed.

Lemma _parse_header_line_typed out ln out' :
  header_typed out -> _parse_header_line out ln = Ok out' -> header_typed out'.
Proof.
  intros Hi Hln. unfold _parse_header_line in Hln.
  destruct (Str.split_first " " ln) as [[key val]|]; [|discriminate].
  destruct (existsb (String.eqb key) int_keys) eqn:Eint.
  { inv_bind Hln. inversion Hln; subst. apply header_typed_set; [exact Hi|].
    unfold header_entry_typed. rewrite Eint. eauto. }
  destruct (String.eqb key "FastServiceRatio") eqn:E1.
  { inv_bind Hln. inversion Hln; subst. apply header_typed_set; [exact Hi|].
    unfold header_entry_typed. rewrite Eint, E1. eauto. }
  destruct (String.eqb key "TimePeriods") eqn:E2.
  { inv_bind Hln. inversion Hln; subst. apply header_typed_set; [exact Hi|].
    unfold header_entry_typed. rewrite Eint, E1. simpl. rewrite E2. simpl. eauto. }
  destruct (String.eqb key "RevenueRange") eqn:E3.
  { inv_bind Hln. inversion Hln; subst. apply header_typed_set; [exact Hi|].
    unfold header_entry_typed. rewrite Eint, E1. simpl. rewrite E2, E3. simpl. eauto. }
  destruct (String.eqb key "ReqDemandRange") eqn:E4.
  { inv_bind Hln. inversion Hln; subst. apply header_typed_set; [exact Hi|].
    unfold header_entry_typed. rewrite Eint, E1. simpl. rewrite E2, E3, E4. simpl. eauto. }
  destruct (String.eqb key "Trans/HoldingCost") eqn:E5.
  { do 3 inv_bind Hln. inversion Hln; subst.
    apply header_typed_set; [apply header_typed_set; [exact Hi|]|];
      unfold header_entry_typed; simpl; eauto. }
  destruct (String.eqb key "Name") eqn:E6.
  { inversion Hln; subst. apply header_typed_set; [exact Hi|].
    unfold header_entry_typed; simpl; eauto. }
  inversion Hln; subst. apply header_typed_set; [exact Hi|].
  unfold header_entry_typed. rewrite Eint, E1. simpl. rewrite E2, E3, E4. simpl.
  destruct (String.eqb key "TransCost" || (String.eqb key "HoldingCost" || false)); eauto.
Qed.

(** X8.  The values of a parsed HEADER have the type their key calls
    for: an integer under NodeSize, RequestSize, ServiceNoPerArc,
    ServiceCapacity and ServiceCost, a float under FastServiceRatio, a
    literal value under TimePeriods, RevenueRange and ReqDemandRange, a raw
    string under Name and under every key the parser does not know.  So
    the [int(...)] and [float(...)] the constructor call applies to the
    five integer keys and to FastServiceRatio cannot raise. *)
Theorem parsed_header_is_typed (lines : list string) (header : dict string hval) :
  _parse_header lines = Ok header ->
  header_typed header /\
  (forall key v, In key int_keys -> dict_get header key = Some v ->
                 exists z, py_int v = Ok z) /\
  (forall v, dict_get header "FastServiceRatio" = Some v ->
             exists x, py_float v = Ok x).
Proof.
  intros Hp.
  assert (Ht : header_typed header).
  { revert Hp. apply (for_lines_invariant _parse_header_line header_typed).
    - intros; eapply _parse_header_line_typed; eauto.
    - intros key v Hv; discriminate. }
  split; [exact Ht|]. split.
  - intros key v Hin Hv. specialize (Ht key v Hv). unfold header_entry_typed in Ht.
    assert (E : existsb (String.eqb key) int_keys = true).
    { apply existsb_exists. exists key. split; [exact Hin | apply String.eqb_refl]. }
    rewrite E in Ht. destruct Ht as (z & ->). exists z. reflexivity.
  - intros v Hv. specialize (Ht _ v Hv). simpl in Ht. destruct Ht as (x & ->).
    exists x. reflexivity.
Qed.



End HeaderFacts.

(* ================================================================== *)
(** * Further properties of the row parsers *)

Section RowFacts.
Context `{PyFloat}.

(** X11.  The holding arcs and their costs go together: the keys of chs
    are pairwise distinct and are exactly the arcs of the holding list,
    and they are that list itself when no arc has two rows. *)
Theorem holding_keys_follow_arcs (lines : list string) (arcsH : list lit)
    (chs : dict lit float) :
  _parse_holding lines = Ok (arcsH, chs) ->
  keys_track (dict_keys chs) arcsH.
Proof.
  intros Hp.
  apply (for_lines_invariant _parse_holding_row
           (fun st => keys_track (dict_keys (snd st)) (fst st))) in Hp;
    [exact Hp | | apply keys_track_nil].
  intros [a c] ln st' Hst Hrow. unfold _parse_holding_row in Hrow.
  inv_bind Hrow. destruct x as [a_str cost_str]. do 3 inv_bind Hrow.
  match goal with
  | Hd : dict_set_lit _ _ _ = Ok _ |- _ => apply dict_set_lit_ok in Hd; subst
  end.
  inversion Hrow; subst. simpl in *. apply keys_track_set; exact Hst.
Qed.

Lemma dict_mem_same_keys {K V W : Type} `{KeyLaws K}
    (a : dict K V) (b : dict K W) (k : K) :
  dict_keys a = dict_keys b -> dict_mem a k = dict_mem b k.
Proof.
  intros E. destruct (dict_mem a k) eqn:Ea; destruct (dict_mem b k) eqn:Eb;
    try reflexivity.
  - apply dict_mem_In in Ea. rewrite E in Ea. apply dict_mem_In in Ea. congruence.
  - apply dict_mem_In in Eb. rewrite <- E in Eb. apply dict_mem_In in Eb. congruence.
Qed.

(** X12.  The two penalty mappings have the same keys, in the same
    order: every PSI row sets both under its (request, time) pair. *)
Theorem psi_mappings_share_keys (lines : list string) (aPsi bPsi : dict (Z * Z) float) :
  _parse_psis lines = Ok (aPsi, bPsi) ->
  dict_keys aPsi = dict_keys bPsi /\ NoDup (dict_keys aPsi).
Proof.
  intros Hp.
  apply (for_lines_invariant _parse_psis_row
           (fun st => dict_keys (fst st) = dict_keys (snd st) /\
                      NoDup (dict_keys (fst st)))) in Hp;
    [exact Hp | | split; [reflexivity | constructor]].
  intros [a b] ln st' [Hst Hnd] Hrow. unfold _parse_psis_row in Hrow.
  inv_bind Hrow. destruct x as [[[k_str t_str] apsi_str] bpsi_str].
  do 4 inv_bind Hrow. inversion Hrow; subst. simpl in *.
  split; [|apply dict_keys_set_NoDup; exact Hnd].
  rewrite !dict_keys_set, (dict_mem_same_keys a b _ Hst), Hst. reflexivity.
Qed.

Lemma unpack2_raises {A : Type} (xs : list A) :
  length xs <> 2%nat -> exists m, unpack2 xs = Raise (ValueError m).
Proof.
  intros Hn. unfold unpack2, unpack_error.
  destruct xs as [|a [|b [|c r]]]; simpl in *; try congruence; eauto.
Qed.

Lemma unpack4_raises {A : Type} (xs : list A) :
  length xs <> 4%nat -> exists m, unpack4 xs = Raise (ValueError m).
Proof.
  intros Hn. unfold unpack4, unpack_error.
  destruct xs as [|a [|b [|c [|d [|e r]]]]]; simpl in *; try congruence; eauto.
Qed.

(** X13.  The HOLDING, PSI, EIN and EOUT rows are unpacked into a fixed
    number of names, so a row with any other number of tab-separated fields
    (fewer or more) raises a ValueError: 2 fields for HOLDING, EIN and
    EOUT, 4 for PSI. *)
Theorem wrong_field_count_raises (ln : string) :
  (length (Str.split Str.TAB ln) <> 2%nat ->
   (forall st, exists m, _parse_holding_row st ln = Raise (ValueError m)) /\
   (forall st, exists m, _parse_exec_lists_row st ln = Raise (ValueError m)) /\
   (forall lines, In ln lines ->
      is_ok (_parse_holding lines) = false /\
      is_ok (_parse_exec_lists lines) = false)) /\
  (length (Str.split Str.TAB ln) <> 4%nat ->
   (forall st, exists m, _parse_psis_row st ln = Raise (ValueError m)) /\
   (forall lines, In ln lines -> is_ok (_parse_psis lines) = false)).
Proof.
  split; intros Hn.
  - assert (Hh : forall st, exists m, _parse_holding_row st ln = Raise (ValueError m)).
    { intros [a c]. unfold _parse_holding_row.
      destruct (unpack2_raises _ Hn) as (m & ->). simpl. eauto. }
    assert (He : forall st, exists m, _parse_exec_lists_row st ln = Raise (ValueError m)).
    { intros st. unfold _parse_exec_lists_row.
      destruct (unpack2_raises _ Hn) as (m & ->). simpl. eauto. }
    split; [exact Hh|]. split; [exact He|].
    intros lines Hin. split.
    + apply for_lines_raises with (ln := ln); [|exact Hin].
      intros st. destruct (Hh st) as (m & ->). reflexivity.
    + apply for_lines_raises with (ln := ln); [|exact Hin].
      intros st. destruct (He st) as (m & ->). reflexivity.
  - assert (Hp : forall st, exists m, _parse_psis_row st ln = Raise (ValueError m)).
    { intros [a b]. unfold _parse_psis_row.
      destruct (unpack4_raises _ Hn) as (m & ->). simpl. eauto. }
    split; [exact Hp|].
    intros lines Hin. apply for_lines_raises with (ln := ln); [|exact Hin].
    intros st. destruct (Hp st) as (m & ->). reflexivity.
Qed.

Lemma split_aux_app c a b : forall cur,
  Str.split_aux c (a ++ String c b) cur =
  (Str.split_aux c a cur ++ Str.split_aux c b "")%list.
Proof.
  induction a as [|d a IH]; intros cur; simpl.
  - rewrite Ascii.eqb_refl. reflexivity.
  - destruct (Ascii.eqb d c); simpl; rewrite IH; reflexivity.
Qed.

Lemma list_index_app {A : Type} (xs ys : list A) (i : nat) :
  (i < length xs)%nat -> list_index (xs ++ ys) i = list_index xs i.
Proof. intros Hi. unfold list_index. rewrite nth_error_app1 by exact Hi. reflexivity. Qed.

(** X14.  The SERVICES and REQS rows are read by position, so fields
    after the eighth are ignored: a row with at least 8 fields and the
    same row with further fields appended are parsed alike. *)
Theorem fields_after_the_eighth_are_ignored (ln more : string) :
  (8 <= length (Str.split Str.TAB ln))%nat ->
  (forall st, _parse_services_row st (ln ++ String Str.TAB more) =
              _parse_services_row st ln) /\
  (forall st, _parse_reqs_row st (ln ++ String Str.TAB more) =
              _parse_reqs_row st ln).
Proof.
  intros Hlen.
  assert (Hs : Str.split Str.TAB (ln ++ String Str.TAB more) =
               (Str.split Str.TAB ln ++ Str.split Str.TAB more)%list).
  { unfold Str.split. apply split_aux_app. }
  split; intros st.
  - destruct st as [[sv c] f]. unfold _parse_services_row. rewrite Hs.
    rewrite !list_index_app by lia. reflexivity.
  - unfold _parse_reqs_row. rewrite Hs.
    rewrite !list_index_app by lia. reflexivity.
Qed.

(** X23.  The arcs of the HOLDING rows and the time nodes of the EIN and
    EOUT rows are dict keys: a row whose first field decodes to a list, or
    to a tuple with a list inside, raises the TypeError of an unhashable
    key once its other field has decoded, although the literal itself is
    well formed. *)
Theorem list_keys_are_unhashable (ln f1 f2 : string) (v : lit) :
  Str.split Str.TAB ln = [f1; f2] ->
  _lit f1 = Ok v ->
  hashable v = false ->
  (forall c, py_float_str f2 = Ok c ->
     forall st, _parse_holding_row st ln = Raise (TypeError "unhashable type: 'list'")) /\
  (forall arcs, (if Str.isempty f2 then Ok (LList []) else _lit f2) = Ok arcs ->
     forall st, _parse_exec_lists_row st ln = Raise (TypeError "unhashable type: 'list'")).
Proof.
  intros Hs Hv Hh. split.
  - intros c Hc [a chs]. unfold _parse_holding_row. rewrite Hs. cbn [unpack2 bind].
    rewrite Hv, Hc. cbn [bind]. unfold dict_set_lit. rewrite Hh. reflexivity.
  - intros arcs Ha st. unfold _parse_exec_lists_row. rewrite Hs. cbn [unpack2 bind].
    rewrite Hv. cbn [bind]. rewrite Ha. cbn [bind].
    unfold dict_set_lit. rewrite Hh. reflexivity.
Qed.

Lemma for_lines_single {S : Type} (body : S -> string -> result S) ln st :
  for_lines body [ln] st = body st ln.
Proof. simpl. destruct (body st ln); reflexivity. Qed.

(** What a SERVICES row does to the state depends on the row alone. *)
Lemma services_row_shape sv cs fs ln st' :
  _parse_services_row (sv, cs, fs) ln = Ok st' ->
  exists a c f,
    st' = ((sv ++ [a])%list, dict_set cs a c, dict_set fs a f) /\
    forall sv2 cs2 fs2,
      _parse_services_row (sv2, cs2, fs2) ln =
      Ok ((sv2 ++ [a])%list, dict_set cs2 a c, dict_set fs2 a f).
Proof.
  unfold _parse_services_row. intros Hrow. do 10 inv_bind Hrow.
  inversion Hrow; subst; clear Hrow.
  repeat match goal with
         | Hd : dict_set_lit _ _ _ = Ok _ |- _ =>
             unfold dict_set_lit in Hd;
             destruct (hashable _) eqn:?; [inversion Hd; subst; clear Hd | discriminate Hd]
         end.
  eexists _, _, _. split; [reflexivity|].
  intros sv2 cs2 fs2.
  repeat match goal with
         | Hd : _ = Ok _ |- _ => rewrite Hd; cbn [bind]
         end.
  unfold dict_set_lit.
  repeat match goal with
         | Hd : hashable _ = true |- _ => rewrite Hd; cbn [bind]
         end.
  reflexivity.
Qed.

(** X15.  When several SERVICES rows carry the same arc, the costs of
    the last of them are the ones kept: after a successful parse, cs and
    fs hold for an arc the costs of the row after which no row has that
    arc. *)
Theorem last_service_row_decides (pre post : list string) (ln : string)
    (sv : list lit) (cs fs : dict lit float) (a : lit) (c f : float) :
  _parse_services (pre ++ ln :: post) = Ok (sv, cs, fs) ->
  _parse_services [ln] = Ok ([a], [(a, c)], [(a, f)]) ->
  (forall l c' f', In l post ->
     _parse_services [l] <> Ok ([a], [(a, c')], [(a, f')])) ->
  dict_get cs a = Some c /\ dict_get fs a = Some f.
Proof.
  unfold _parse_services. intros Hall Hln Hpost.
  rewrite for_lines_app in Hall. apply bind_ok in Hall as ([[sv1 cs1] fs1] & _ & Hall).
  cbn [for_lines] in Hall. apply bind_ok in Hall as (st2 & Hrow & Hrest).
  rewrite for_lines_single in Hln.
  apply services_row_shape in Hln as (a' & c' & f' & E & Hany).
  inversion E; subst a' c' f'; clear E.
  rewrite Hany in Hrow. inversion Hrow; subst st2; clear Hrow.
  assert (Hinv : forall lines st,
             (forall l c' f', In l lines ->
                for_lines _parse_services_row [l] ([], [], []) <>
                Ok ([a], [(a, c')], [(a, f')])) ->
             dict_get (snd (fst st)) a = Some c /\ dict_get (snd st) a = Some f ->
             forall st', for_lines _parse_services_row lines st = Ok st' ->
             dict_get (snd (fst st')) a = Some c /\ dict_get (snd st') a = Some f).
  { induction lines as [|l r IH]; intros st Hno Hst st' Hrun; cbn [for_lines] in Hrun.
    - inversion Hrun; subst; exact Hst.
    - apply bind_ok in Hrun as (st1 & Hl & Hrun).
      apply (IH st1); [intros; apply Hno; right; assumption | | exact Hrun].
      destruct st as [[s0 c0] f0].
      apply services_row_shape in Hl as (b & cb & fb & -> & Hb).
      cbn [fst snd] in *. assert (Hne : b <> a).
      { intros ->. apply (Hno l cb fb (or_introl eq_refl)).
        rewrite for_lines_single, Hb. reflexivity. }
      rewrite !dict_get_set_other by exact Hne. exact Hst. }
  apply (Hinv post _ Hpost) in Hrest; [exact Hrest|].
  simpl. rewrite !dict_get_set_same. auto.
Qed.

End RowFacts.

(* ================================================================== *)
(** * Further properties of the scenario parser *)

Section ScenarioFacts.
Context `{PyFloat}.

Lemma _w_row_keys st ln st' :
  dict_keys (fst st) = dict_keys (snd st) /\ NoDup (dict_keys (fst st)) ->
  _w_row st ln = Ok st' ->
  dict_keys (fst st') = dict_keys (snd st') /\ NoDup (dict_keys (fst st')).
Proof.
  destruct st as [mu rnd]. intros [Hk Hnd] Hrow. unfold _w_row in Hrow.
  inv_bind Hrow. destruct x as [[req_str mu_str] draws_str].
  do 3 inv_bind Hrow. inversion Hrow; subst. simpl in *.
  split; [|apply dict_keys_set_NoDup; exact Hnd].
  rewrite !dict_keys_set, (dict_mem_same_keys mu rnd _ Hk), Hk. reflexivity.
Qed.

(** X16.  The two mappings of a scenario set have the same keys, in the
    same order and without repetition: every row sets the baseline mean
    and the draws of its request id together. *)
Theorem scenario_mappings_share_keys (N K F C : Z) (nu_ : float) (text : string)
    (ws : WScenarioSet) :
  load_w_scenarios_text N K F C nu_ text = Ok ws ->
  dict_keys (w_mu ws) = dict_keys (rnd_ws ws) /\ NoDup (dict_keys (w_mu ws)).
Proof.
  unfold load_w_scenarios_text. intros Hl. inv_bind Hl. destruct x as [mu rnd].
  inversion Hl; subst; clear Hl. simpl.
  apply (for_lines_invariant _w_row
           (fun st => dict_keys (fst st) = dict_keys (snd st) /\
                      NoDup (dict_keys (fst st)))) in Hx;
    [exact Hx | | split; [reflexivity | constructor]].
  intros st ln st' Hst Hrow. eapply _w_row_keys; eauto.
Qed.

Lemma splitlines_aux_line h t : forall cur,
  (forall c, Str.contains c h = true -> Str.islinebreak c = false) ->
  Str.splitlines_aux (h ++ String Str.LF t) cur =
  (Str.rev cur ++ h) :: Str.splitlines_aux t "".
Proof.
  induction h as [|c h IH]; intros cur Hh.
  - simpl append. rewrite append_empty_r.
    cbn [Str.splitlines_aux]. change (Str.islinebreak Str.LF) with true. cbv iota.
    destruct t as [|d t']; [reflexivity|].
    change (Ascii.eqb Str.LF Str.CR) with false. reflexivity.
  - simpl append. cbn [Str.splitlines_aux].
    assert (Hc : Str.islinebreak c = false).
    { apply Hh. simpl. rewrite Ascii.eqb_refl. reflexivity. }
    rewrite Hc. rewrite IH.
    + f_equal. change (String c cur) with (Str.rev_acc (String c "") cur).
      rewrite rev_rev_acc, append_assoc. reflexivity.
    + intros x Hx. apply Hh. simpl. rewrite Hx. apply orb_true_r.
Qed.

(** X17.  The header line of a scenario file is optional: a first line
    that starts with "reqs" is dropped, so a file and the same file
    without that line are parsed alike (the file without it must not begin
    with a line that starts with "reqs" itself). *)
Theorem scenario_header_is_optional (N K F C : Z) (nu_ : float)
    (header text : string) :
  (forall c, Str.contains c header = true -> Str.islinebreak c = false) ->
  Str.startswith "reqs" (Str.strip header) = true ->
  match filter (fun l => negb (Str.isempty l)) (map Str.strip (Str.splitlines text)) with
  | l0 :: _ => Str.startswith "reqs" l0 = false
  | [] => True
  end ->
  load_w_scenarios_text N K F C nu_ (header ++ String Str.LF text) =
  load_w_scenarios_text N K F C nu_ text.
Proof.
  intros Hh Hreqs Hfirst. unfold load_w_scenarios_text, Str.splitlines.
  rewrite splitlines_aux_line by exact Hh.
  change (Str.rev "" ++ header) with header. cbn [map filter].
  assert (Hne : Str.isempty (Str.strip header) = false).
  { destruct (Str.strip header); [discriminate Hreqs | reflexivity]. }
  rewrite Hne. cbn [negb]. rewrite Hreqs.
  unfold Str.splitlines in Hfirst.
  destruct (filter (fun l => negb (Str.isempty l))
                   (map Str.strip (Str.splitlines_aux text ""))) as [|l0 r];
    [reflexivity|].
  rewrite Hfirst. reflexivity.
Qed.

Lemma unpack3_raises {A : Type} (xs : list A) :
  length xs <> 3%nat -> exists m, unpack3 xs = Raise (ValueError m).
Proof.
  intros Hn. unfold unpack3, unpack_error.
  destruct xs as [|a [|b [|c [|d r]]]]; simpl in *; try congruence; eauto.
Qed.

(** X18.  Every row of a scenario file is unpacked into three names: a
    row with any other number of tab-separated fields raises a ValueError
    and the file is not loaded. *)
Theorem scenario_row_needs_3_fields (N K F C : Z) (nu_ : float) (text ln : string) :
  In ln (scenario_rows text) ->
  length (Str.split Str.TAB ln) <> 3%nat ->
  (forall st, exists m, _w_row st ln = Raise (ValueError m)) /\
  is_ok (load_w_scenarios_text N K F C nu_ text) = false.
Proof.
  intros Hin Hn.
  assert (Hrow : forall st, exists m, _w_row st ln = Raise (ValueError m)).
  { intros [mu rnd]. unfold _w_row.
    destruct (unpack3_raises _ Hn) as (m & ->). simpl. eauto. }
  split; [exact Hrow|].
  unfold load_w_scenarios_text. fold (scenario_rows text).
  assert (Hf : is_ok (for_lines _w_row (scenario_rows text) ([], [])) = false).
  { apply for_lines_raises with (ln := ln); [|exact Hin].
    intros st. destruct (Hrow st) as (m & ->). reflexivity. }
  destruct (for_lines _w_row (scenario_rows text) ([], [])); [discriminate Hf | reflexivity].
Qed.

End ScenarioFacts.

(* ================================================================== *)
(** * Further properties of the file-name patterns and the archive loop *)





Section ArchiveFacts.
Context `{PyFloat}.

Lemma load_instances_zip_loop zf :
  load_instances_zip zf = instances_loop zf (map fst zf) [].
Proof.
  unfold load_instances_zip. generalize (map fst zf).
  generalize (@nil (Z * Z * Z * Z * SSNDInstance)).
  intros out names. revert out.
  induction names as [|name r IH]; intros out; [reflexivity|].
  cbn [instances_loop]. rewrite <- IH.
  destruct (instance_key name) as [[[[[N K] F] C]|e]|]; try reflexivity.
  cbn [bind]. destruct (load_instance_text N K F C (zf_read zf name)); cbn [bind];
    [|reflexivity].
  rewrite <- IH. reflexivity.
Qed.

Lemma instances_loop_raises zf name N K F C : forall names out,
  In name names ->
  instance_key name = Some (Ok (N, K, F, C)) ->
  is_ok (load_instance_text N K F C (zf_read zf name)) = false ->
  is_ok (instances_loop zf names out) = false.
Proof.
  induction names as [|n r IH]; intros out Hin Hk Hbad; [destruct Hin|].
  cbn [instances_loop]. destruct Hin as [->|Hin].
  - rewrite Hk. cbn [bind].
    destruct (load_instance_text N K F C (zf_read zf name)); [discriminate Hbad | reflexivity].
  - destruct (instance_key n) as [[[[[N' K'] F'] C']|e]|]; cbn [bind];
      [|reflexivity|apply IH; assumption].
    destruct (load_instance_text N' K' F' C' (zf_read zf n)); cbn [bind];
      [apply IH; assumption | reflexivity].
Qed.

(** X20.  One entry that cannot be parsed fails the whole load: when an
    entry of the archive matches the pattern and its text does not load,
    [load_instances_zip] raises, whatever the other entries are. *)
Theorem one_bad_entry_fails_the_load (zf : archive) (name : string) (N K F C : Z) :
  In name (map fst zf) ->
  instance_key name = Some (Ok (N, K, F, C)) ->
  is_ok (load_instance_text N K F C (zf_read zf name)) = false ->
  is_ok (load_instances_zip zf) = false.
Proof.
  intros Hin Hk Hbad. rewrite load_instances_zip_loop.
  eapply instances_loop_raises; eauto.
Qed.

Lemma instances_loop_spec zf : forall names out out',
  instances_loop zf names out = Ok out' ->
  (NoDup (dict_keys out) -> NoDup (dict_keys out')) /\
  (forall k, In k (dict_keys out') <->
             In k (dict_keys out) \/
             exists name, In name names /\ instance_key name = Some (Ok k)) /\
  (forall k inst, dict_get out' k = Some inst ->
     dict_get out k = Some inst \/
     exists name, In name names /\ instance_key name = Some (Ok k) /\
       load_instance_text (fst (fst (fst k))) (snd (fst (fst k)))
                          (snd (fst k)) (snd k) (zf_read zf name) = Ok inst).
Proof.
  induction names as [|n r IH]; intros out out' Hrun; cbn [instances_loop] in Hrun.
  - inversion Hrun; subst. split; [auto|]. split.
    + intros k. split; [auto | intros [Hk|(name & [] & _)]; exact Hk].
    + intros k inst Hk; left; exact Hk.
  - destruct (instance_key n) as [[[[[N K] F] C]|e]|] eqn:Ek; cbn [bind] in Hrun;
      [|discriminate Hrun|].
    + destruct (load_instance_text N K F C (zf_read zf n)) as [inst0|e] eqn:El;
        cbn [bind] in Hrun; [|discriminate Hrun].
      apply IH in Hrun as (Hnd & Hkeys & Hvals). split; [|split].
      * intros Hout. apply Hnd. apply dict_keys_set_NoDup; exact Hout.
      * intros k. rewrite Hkeys, dict_keys_set_In. split.
        -- intros [[Hk|E]|(name & Hin & Hn)]; [left; exact Hk | |].
           ++ subst k. right. exists n. split; [left; reflexivity | exact Ek].
           ++ right. exists name. split; [right; exact Hin | exact Hn].
        -- intros [Hk|(name & [->|Hin] & Hn)].
           ++ left; left; exact Hk.
           ++ left; right. rewrite Ek in Hn. inversion Hn; reflexivity.
           ++ right. exists name. auto.
      * intros k inst Hk. apply Hvals in Hk as [Hk|(name & Hin & Hn & Hl)].
        -- destruct (key_eqb (N, K, F, C) k) eqn:E.
           ++ apply (key_eqb_eq (N, K, F, C) k) in E. subst k.
              rewrite dict_get_set_same in Hk. inversion Hk; subst inst0.
              right. exists n. split; [left; reflexivity|]. split; [exact Ek | exact El].
           ++ rewrite dict_get_set_other in Hk; [left; exact Hk|].
              intros E'. subst k. rewrite key_eqb_refl in E. discriminate E.
        -- right. exists name. split; [right; exact Hin | auto].
    + apply IH in Hrun as (Hnd & Hkeys & Hvals). split; [exact Hnd|]. split.
      * intros k. rewrite Hkeys. split.
        -- intros [Hk|(name & Hin & Hn)]; [left; exact Hk|].
           right. exists name. split; [right; exact Hin | exact Hn].
        -- intros [Hk|(name & [->|Hin] & Hn)]; [left; exact Hk | congruence |].
           right. exists name. auto.
      * intros k inst Hk. apply Hvals in Hk as [Hk|(name & Hin & Hn)]; [left; exact Hk|].
        right. exists name. split; [right; exact Hin | exact Hn].
Qed.

(** X21.  A successful load returns one instance for each key (N, K, F,
    C) that a matching entry name gives, and nothing else: the keys are
    pairwise distinct and are exactly the keys of the matching entries
    (entries that do not match are passed over), and the instance under a
    key was parsed, with that key, from the text of an entry that has
    it. *)
Theorem loaded_keys_are_the_matching_entries (zf : archive)
    (out : dict (Z * Z * Z * Z) SSNDInstance) :
  load_instances_zip zf = Ok out ->
  NoDup (dict_keys out) /\
  (forall k, In k (dict_keys out) <->
             exists name, In name (map fst zf) /\ instance_key name = Some (Ok k)) /\
  (forall N K F C inst,
     dict_get out (N, K, F, C) = Some inst ->
     exists name, In name (map fst zf) /\
                  instance_key name = Some (Ok (N, K, F, C)) /\
                  load_instance_text N K F C (zf_read zf name) = Ok inst).
Proof.
  rewrite load_instances_zip_loop. intros Hl.
  apply instances_loop_spec in Hl as (Hnd & Hkeys & Hvals).
  split; [apply Hnd; constructor|]. split.
  - intros k. rewrite Hkeys. simpl. tauto.
  - intros N K F C inst Hk. apply Hvals in Hk as [Hk|Hk]; [discriminate Hk|].
    exact Hk.
Qed.

End ArchiveFacts.






(* ================================================================== *)
(** * Further worked examples *)

Section Worked2.
#[local] Existing Instance DecFloat.dec_float.

Lemma tables_stop_at_unknown_line_witness :
  _section_blocks Sample2.text_with_comment =
    [ ("HEADER", (Sample.header_lines ++ ["ServiceCost 7"])%list);
      ("ARCS", ["[(1,2),(2,3)]"]) ].
Proof.
  rewrite (tables_stop_at_unknown_line Sample2.text_with_comment
             (a := "Arcs [(1,2),(2,3)]") (ln := "# tables")
             (rest := [""; "# tables"; Sample.services_header; Sample.service_row])
             (r := [Sample.services_header; Sample.service_row])).
  - reflexivity.
  - reflexivity.
  - reflexivity.
  - intros sec hrow Hin. simpl in Hin.
    repeat (destruct Hin as [E|Hin]; [inversion E; subst; discriminate|]).
    destruct Hin.
Defined.

Lemma file_without_arcs_is_all_header_witness :
  _section_blocks Sample2.text_without_arcs =
    [ ("HEADER", ["NodeSize 3"; "Name T1"]) ].
Proof.
  rewrite (file_without_arcs_is_all_header Sample2.text_without_arcs).
  - reflexivity.
  - intros ln Hin. vm_compute in Hin.
    repeat (destruct Hin as [<-|Hin]; [reflexivity|]). destruct Hin.
Defined.

Lemma table_rows_have_no_empty_end_field_witness :
  hd "" (Str.split Str.TAB Sample.service_row) <> "" /\
  last (Str.split Str.TAB Sample.service_row) "" <> "".
Proof.
  apply (table_rows_have_no_empty_end_field Sample.text_with_cost
           (sec := "SERVICES") Sample.service_row).
  - unfold table_names. simpl. tauto.
  - assert (Hb : block (_section_blocks Sample.text_with_cost) "SERVICES" =
                 [Sample.service_row]) by (vm_compute; reflexivity).
    rewrite Hb. left. reflexivity.
Defined.

Lemma parsed_header_is_typed_witness :
  _parse_header ["NodeSize 3"; "FastServiceRatio 0.5"] =
    Ok [("NodeSize", HLit (LInt 3));
        ("FastServiceRatio", HFloat (DecFloat.Fin (1 # 2)))] /\
  header_typed [("NodeSize", HLit (LInt 3));
                ("FastServiceRatio", HFloat (DecFloat.Fin (1 # 2)))].
Proof.
  split; [reflexivity|].
  refine (proj1 (parsed_header_is_typed ["NodeSize 3"; "FastServiceRatio 0.5"] _)).
  reflexivity.
Defined.


Lemma holding_keys_follow_arcs_witness :
  keys_track (dict_keys [(Sample2.holding_arc, DecFloat.Fin (3 # 2))])
             [Sample2.holding_arc].
Proof.
  refine (holding_keys_follow_arcs [Sample2.holding_row]
            (arcsH := [Sample2.holding_arc])
            (chs := [(Sample2.holding_arc, DecFloat.Fin (3 # 2))]) _).
  reflexivity.
Defined.

Lemma psi_mappings_share_keys_witness :
  dict_keys [((1, 0), DecFloat.Fin (2 # 1))] = dict_keys [((1, 0), DecFloat.Fin (3 # 1))] /\
  NoDup (dict_keys [((1, 0), DecFloat.Fin (2 # 1))]).
Proof.
  refine (psi_mappings_share_keys [Sample2.psi_row]
            (aPsi := [((1, 0), DecFloat.Fin (2 # 1))])
            (bPsi := [((1, 0), DecFloat.Fin (3 # 1))]) _).
  reflexivity.
Defined.

Lemma wrong_field_count_raises_witness :
  is_ok (_parse_psis [Sample2.holding_row]) = false /\
  is_ok (_parse_holding [Sample2.psi_row]) = false.
Proof.
  split.
  - apply (proj2 (wrong_field_count_raises Sample2.holding_row));
      [discriminate | left; reflexivity].
  - apply (proj1 (wrong_field_count_raises Sample2.psi_row));
      [discriminate | left; reflexivity].
Defined.

Lemma fields_after_the_eighth_are_ignored_witness :
  _parse_services [(Sample.service_row ++ String Str.TAB "9.9")%string] =
  _parse_services [Sample.service_row].
Proof.
  unfold _parse_services. cbn [for_lines].
  rewrite (proj1 (fields_after_the_eighth_are_ignored Sample.service_row "9.9"
                    (le_n 8))).
  reflexivity.
Defined.

Lemma last_service_row_decides_witness :
  dict_get [(Sample.arc, DecFloat.Fin (4 # 1))] Sample.arc = Some (DecFloat.Fin (4 # 1)) /\
  dict_get [(Sample.arc, DecFloat.Fin (6 # 1))] Sample.arc = Some (DecFloat.Fin (6 # 1)).
Proof.
  refine (last_service_row_decides [Sample.service_row] []
            Sample2.service_row_again
            (sv := [Sample.arc; Sample.arc])
            (cs := [(Sample.arc, DecFloat.Fin (4 # 1))])
            (fs := [(Sample.arc, DecFloat.Fin (6 # 1))])
            (a := Sample.arc) _ _ _).
  - reflexivity.
  - reflexivity.
  - intros l c' f' [].
Defined.

Lemma list_keys_are_unhashable_witness :
  _parse_holding [Sample2.holding_row_with_list] =
  Raise (TypeError "unhashable type: 'list'").
Proof.
  unfold _parse_holding. cbn [for_lines].
  rewrite (proj1 (list_keys_are_unhashable (H := DecFloat.dec_float)
                    Sample2.holding_row_with_list
                    (f1 := "[(1,0),(1,1)]") (f2 := "1.5")
                    (v := LList [LTuple [LInt 1; LInt 0]; LTuple [LInt 1; LInt 1]])
                    eq_refl eq_refl eq_refl)
             (DecFloat.Fin (3 # 2)) eq_refl).
  reflexivity.
Defined.

Lemma scenario_mappings_share_keys_witness :
  exists ws,
    load_w_scenarios_text 1 2 3 4 (DecFloat.Fin (1 # 2)) Sample2.scenario_text = Ok ws /\
    rnd_ws ws = [(1, [3; 5]); (2, [7])] /\
    dict_keys (w_mu ws) = dict_keys (rnd_ws ws) /\ NoDup (dict_keys (w_mu ws)).
Proof.
  eexists. split; [reflexivity|]. split; [reflexivity|].
  refine (scenario_mappings_share_keys 1 2 3 4 (DecFloat.Fin (1 # 2))
            Sample2.scenario_text _).
  reflexivity.
Defined.

Lemma scenario_header_is_optional_witness :
  load_w_scenarios_text 1 2 3 4 (DecFloat.Fin (1 # 2))
    (Sample2.scenario_header ++ String Str.LF Sample2.scenario_text) =
  load_w_scenarios_text 1 2 3 4 (DecFloat.Fin (1 # 2)) Sample2.scenario_text.
Proof.
  apply scenario_header_is_optional.
  - intros c.
    destruct c as [[] [] [] [] [] [] [] []]; vm_compute; intros Hc;
      first [reflexivity | discriminate Hc].
  - reflexivity.
  - vm_compute. reflexivity.
Defined.

Lemma scenario_row_needs_3_fields_witness :
  is_ok (load_w_scenarios_text 1 2 3 4 (DecFloat.Fin (1 # 2))
           Sample2.scenario_text_short_row) = false.
Proof.
  refine (proj2 (scenario_row_needs_3_fields 1 2 3 4 (DecFloat.Fin (1 # 2))
                   Sample2.scenario_text_short_row (row ["2"; "6"]) _ _)).
  - right. left. reflexivity.
  - discriminate.
Defined.

Lemma one_bad_entry_fails_the_load_witness :
  is_ok (load_instances_zip Sample2.zip_with_bad_entry) = false.
Proof.
  refine (one_bad_entry_fails_the_load Sample2.zip_with_bad_entry
            "ins_N3_K1_Freq1_sCap50.txt" (N := 3) (K := 1) (F := 1) (C := 50) _ _ _).
  - right. left. reflexivity.
  - reflexivity.
  - reflexivity.
Defined.

Lemma loaded_keys_are_the_matching_entries_witness :
  load_instances_zip Sample2.zip_with_readme = Ok [((10, 5, 2, 20), Sample.instance)] /\
  NoDup (dict_keys [((10, 5, 2, 20), Sample.instance)]).
Proof.
  assert (Hl : load_instances_zip Sample2.zip_with_readme =
               Ok [((10, 5, 2, 20), Sample.instance)]) by reflexivity.
  split; [exact Hl|].
  exact (proj1 (loaded_keys_are_the_matching_entries Sample2.zip_with_readme Hl)).
Defined.

End Worked2.


